(** * Transport Management System: the offline-fallback data-access layer
      and the form validation rules

    A shallow embedding of the richer of the two variants of the front end
    (the one with the local-storage fallback): [ApiClient] (get, post,
    handleError and the local-storage helpers) and [FormValidator]
    (validateVehicleForm, validateTicketForm, validateParcelForm).

    Conventions of the embedding.
    - The outcome of the HTTP call and the reading of the clock are inputs
      of the operation: [get] and [post] take the settled axios promise,
      [post] also takes the value [Date.now()] returns if it is called.
    - The browser is a [world]: the contents of [localStorage] and a
      chronological trace of what the code does to the console, to the
      notification component and to [localStorage].
    - [localStorage] holds, per key, the JSON text of an array; the only
      writer is [saveToLocalStorage], which serialises an array, and the
      readers parse it back.  The model keeps the array itself.
    - [NotificationManager.show] is the entry point of the notification
      component; a call of it is recorded as the event [NotificationShow].
      The page is taken to have its toast container, as it has once
      [NotificationManager.init] has found it: [show] then always appends
      the toast.  Its branch for a missing container (a warning on the
      console instead of a toast) and the rendering in the DOM are not
      modelled. *)

From Stdlib Require Import ZArith NArith String Ascii List Lia.
From Stdlib Require Import Decimal DecimalString DecimalZ DecimalPos.
From stdpp Require Import base gmap strings list.

Set Warnings "-register-all".
Set Default Proof Using "Type".

Local Open Scope string_scope.
Local Open Scope list_scope.
Local Open Scope Z_scope.

(** ** JavaScript values *)

Module JS.

(** JSON values as they travel between the API, the data layer and
    [localStorage].  Numbers are carried around, never computed on. *)
Inductive json : Type :=
| JNull
| JBool (b : bool)
| JNum (n : Z)
| JStr (s : string)
| JArr (l : list json)
| JObj (o : gmap string json).

(** ToBoolean *)
Definition truthy (v : json) : bool :=
  match v with
  | JNull => false
  | JBool b => b
  | JNum n => negb (n =? 0)
  | JStr s => negb (String.eqb s "")
  | JArr _ => true
  | JObj _ => true
  end.

(** [hay.includes(needle)] *)
Fixpoint includes (hay needle : string) : bool :=
  String.prefix needle hay ||
  match hay with
  | EmptyString => false
  | String _ rest => includes rest needle
  end.

(** [n.toString()] for an integral number such as the result of
    [Date.now()]: the decimal numeral, with a minus sign if negative.
    (JavaScript switches to exponent notation from 1e21 on, far above any
    reading of the clock.) *)
Definition Number_toString (n : Z) : string :=
  NilZero.string_of_int (Z.to_int n).

(** The numeric value of a decimal numeral, [Number(s)] on the strings
    [Number_toString] produces. *)
Definition Number_ofString (s : string) : option Z :=
  Z.of_int <$> NilZero.int_of_string s.

End JS.
Import JS.

(** ** axios *)

Module Axios.

Record AxiosResponse : Type := mkResponse {
  data : json;
  status : Z
}.

(** [AxiosError]: [code] and [response] are optional. *)
Record AxiosError : Type := mkError {
  code : option string;
  response : option AxiosResponse;
  message : string
}.

(** The settled promise of [axios.get] / [axios.post]. *)
Inductive outcome : Type :=
| Resolved (r : AxiosResponse)
| Rejected (e : AxiosError).

End Axios.
Export Axios (AxiosResponse, AxiosError, mkResponse, mkError, Resolved, Rejected).

(** ** Notifications, console and the browser state *)

Module ToastType.
Inductive t : Type := success | error | info | warning.
End ToastType.

Record ToastMessage : Type := mkToast {
  type : ToastType.t;
  toast_message : string
}.

Inductive event : Type :=
| ConsoleWarn (msg : string)
| ConsoleError (label : string) (err : AxiosError)
| NotificationShow (toast : ToastMessage)
| GetItem (key : string)
| SetItem (key : string)
| RemoveItem (key : string).

Record world : Type := mkWorld {
  localStorage : gmap string (list json);
  trace : list event
}.

(** ** Computations that change the world and may throw *)

Inductive completion (A : Type) : Type :=
| Normal (a : A)
| Throw (e : AxiosError).
Arguments Normal {A} a.
Arguments Throw {A} e.

Definition M (A : Type) : Type := world → completion A * world.

Definition ret {A} (a : A) : M A := fun w => (Normal a, w).

Definition throw {A} (e : AxiosError) : M A := fun w => (Throw e, w).

Definition bind {A B} (m : M A) (k : A → M B) : M B :=
  fun w =>
    match m w with
    | (Normal a, w') => k a w'
    | (Throw e, w') => (Throw e, w')
    end.

Definition try_catch {A} (body : M A) (handler : AxiosError → M A) : M A :=
  fun w =>
    match body w with
    | (Normal a, w') => (Normal a, w')
    | (Throw e, w') => handler e w'
    end.

#[global] Instance M_ret : MRet M := @ret.
#[global] Instance M_bind : MBind M := fun A B k m => bind m k.

Definition emit (e : event) : M unit :=
  fun w => (Normal tt, mkWorld (localStorage w) (trace w ++ [e])).

Definition console_warn (msg : string) : M unit := emit (ConsoleWarn msg).

Definition console_error (label : string) (err : AxiosError) : M unit :=
  emit (ConsoleError label err).

(** [localStorage.getItem(key)]: [None] is JavaScript's [null]. *)
Definition getItem (key : string) : M (option (list json)) :=
  fun w => (Normal (localStorage w !! key),
            mkWorld (localStorage w) (trace w ++ [GetItem key])).

(** [localStorage.setItem(key, JSON.stringify(value))] *)
Definition setItem (key : string) (value : list json) : M unit :=
  fun w => (Normal tt,
            mkWorld (<[key := value]> (localStorage w)) (trace w ++ [SetItem key])).

(** [localStorage.removeItem(key)] *)
Definition removeItem (key : string) : M unit :=
  fun w => (Normal tt,
            mkWorld (delete key (localStorage w)) (trace w ++ [RemoveItem key])).

(** The awaited axios call: resolves to the response or throws the error. *)
Definition await (net : Axios.outcome) : M AxiosResponse :=
  match net with
  | Resolved r => mret r
  | Rejected e => throw e
  end.

Module NotificationManager.

(** [show(toast)] with the toast container in place: the toast is shown. *)
Definition show (toast : ToastMessage) : M unit := emit (NotificationShow toast).

End NotificationManager.

(** ** Constants *)

Module STORAGE_KEYS.
Definition VEHICLES := "matatu_vehicles".
Definition TICKETS := "matatu_tickets".
Definition PARCELS := "matatu_parcels".
Definition RECEIPTS := "matatu_receipts".
Definition REPORTS := "matatu_reports".
End STORAGE_KEYS.

(** ** ApiClient *)

Module ApiClient.

(** Map endpoint to storage key ([switch] compares with [===]). *)
Definition getStorageKey (endpoint : string) : option string :=
  if String.eqb endpoint "/vehicles" then Some STORAGE_KEYS.VEHICLES
  else if String.eqb endpoint "/tickets" then Some STORAGE_KEYS.TICKETS
  else if String.eqb endpoint "/parcels" then Some STORAGE_KEYS.PARCELS
  else if String.eqb endpoint "/receipts" then Some STORAGE_KEYS.RECEIPTS
  else if String.eqb endpoint "/reports" then Some STORAGE_KEYS.REPORTS
  else None.

(** Get raw local data: [data ? JSON.parse(data) : []]. *)
Definition getLocalData (key : string) : M (list json) :=
  data ← getItem key;
  mret (match data with Some l => l | None => [] end).

(** Save data to local storage. *)
Definition saveToLocalStorage (endpoint : string) (data : json) : M unit :=
  match getStorageKey endpoint with
  | Some key =>
      existing ← getLocalData key ;
      setItem key (existing ++ [data])
  | None => mret tt
  end.

(** Get data from local storage: [data ? JSON.parse(data) : null]. *)
Definition getFromLocalStorage (endpoint : string) : M json :=
  match getStorageKey endpoint with
  | Some key =>
      data ← getItem key;
      mret (match data with Some l => JArr l | None => JNull end)
  | None => mret JNull
  end.

(** Sync local storage with backend when online: the key is removed,
    [data] is not used. *)
Definition syncWithLocalStorage (endpoint : string) (data : json) : M unit :=
  match getStorageKey endpoint with
  | Some key => removeItem key
  | None => mret tt
  end.

(** The test both [catch] blocks start with:
    [error.code === 'ECONNABORTED' || error.response?.status === 0 ||
     error.message.includes('ECONNREFUSED')]. *)
Definition isConnectionError (error : AxiosError) : bool :=
  match Axios.code error with Some c => String.eqb c "ECONNABORTED" | None => false end
  || match Axios.response error with Some r => Axios.status r =? 0 | None => false end
  || includes (Axios.message error) "ECONNREFUSED".

(** The message [handleError] puts in its toast. *)
Definition errorMessage (error : AxiosError) : string :=
  match Axios.response error with
  | Some r =>
      if Axios.status r =? 500 then "Server error. Please try again later."
      else if Axios.status r =? 404 then "Resource not found."
      else if match Axios.code error with
              | Some c => String.eqb c "ECONNABORTED"
              | None => false
              end
      then "Request timed out. Please check your connection."
      else "An unexpected error occurred"
  | None =>
      if includes (Axios.message error) "ECONNREFUSED"
      then "Backend unavailable. Using local data."
      else "An unexpected error occurred"
  end.

(** Handle error: log it and show a toast of type error. *)
Definition handleError (error : AxiosError) : M unit :=
  console_error "API Error:" error;;
  NotificationManager.show (mkToast ToastType.error (errorMessage error)).

(** Enhanced get method with local storage fallback.  [net] is the
    settled [axiosInstance.get] call (timeout 5000). *)
Definition get (net : Axios.outcome) (endpoint : string) : M json :=
  try_catch
    (response ← await net;
     mret (Axios.data response))
    (fun error =>
       if isConnectionError error then
         data ← getFromLocalStorage endpoint;
         if truthy data then
           console_warn ("Using local storage data for " +:+ endpoint +:+
                         " due to connection error");;
           mret data
         else
           handleError error;; throw error
       else
         handleError error;; throw error).

(** The name of the only field of the mock response. *)
Definition mockKey (endpoint : string) : string :=
  if includes endpoint "vehicles" then "vehicle_id"
  else if includes endpoint "tickets" then "ticket_id"
  else if includes endpoint "parcels" then "parcel_id"
  else "".

(** Enhanced post method with local storage and sync.  [net] is the
    settled [axiosInstance.post] call, [now] what [Date.now()] returns
    in the [catch] block, [data] the object that is posted (every caller
    posts an object literal). *)
Definition post (net : Axios.outcome) (now : Z)
    (endpoint : string) (data : gmap string json) : M json :=
  try_catch
    (response ← await net;
     syncWithLocalStorage endpoint (Axios.data response);;
     mret (Axios.data response))
    (fun error =>
       if isConnectionError error then
         let mockId := Number_toString now in
         let mockData := JObj (<["id" := JStr mockId]> data) in
         saveToLocalStorage endpoint mockData;;
         console_warn ("Stored " +:+ endpoint +:+
                       " locally due to connection error: " +:+ mockId);;
         let key := mockKey endpoint in
         mret (JObj {[ key := JStr mockId ]})
       else
         handleError error;; throw error).

End ApiClient.

(** ** Strings of form fields

    The values of form fields are JavaScript strings: sequences of UTF-16
    code units.  [trim], [parseInt] and the regular expressions (which have
    no [u] flag) all work on code units. *)

Module JSString.

Definition jsstring : Type := list N.

(** A literal of the source as a sequence of code units. *)
Definition lit (s : string) : jsstring :=
  N_of_ascii <$> list_ascii_of_string s.

(** WhiteSpace and LineTerminator of ECMAScript: what [trim] strips,
    what [parseInt] skips and what [\s] matches. *)
Definition isWhiteSpace (c : N) : bool :=
  ((c =? 9) || (c =? 10) || (c =? 11) || (c =? 12) || (c =? 13)
   || (c =? 32) || (c =? 160) || (c =? 5760)
   || ((8192 <=? c) && (c <=? 8202))
   || (c =? 8232) || (c =? 8233) || (c =? 8239) || (c =? 8287)
   || (c =? 12288) || (c =? 65279))%N.

Definition isDigit (c : N) : bool := ((48 <=? c) && (c <=? 57))%N.

Definition isUpper (c : N) : bool := ((65 <=? c) && (c <=? 90))%N.

Fixpoint trimStart (s : jsstring) : jsstring :=
  match s with
  | c :: rest => if isWhiteSpace c then trimStart rest else s
  | [] => []
  end.

Definition trimEnd (s : jsstring) : jsstring := rev (trimStart (rev s)).

Definition trim (s : jsstring) : jsstring := trimEnd (trimStart s).

(** The longest prefix of decimal digits, read as a number; [acc] is the
    value of the digits read so far, [None] before the first one. *)
Fixpoint digits (s : jsstring) (acc : option Z) : option Z :=
  match s with
  | c :: rest =>
      if isDigit c
      then digits rest (Some (10 * default 0 acc + (Z.of_N c - 48)))
      else acc
  | [] => acc
  end.

(** [parseInt(s, 10)]: leading white space is skipped, then a sign
    ([-] is 45, [+] is 43) and the digits up to the first other code
    unit are read; [None] is [NaN].  The result is the mathematical
    integer: the callers only compare it with 1 and 100, which the
    rounding of very long numerals to a double does not change. *)
Definition parseInt (s : jsstring) : option Z :=
  match trimStart s with
  | c :: rest =>
      if (c =? 45)%N then Z.opp <$> digits rest None
      else if (c =? 43)%N then digits rest None
      else digits (c :: rest) None
  | [] => None
  end.

End JSString.
Import JSString.

(** ** Regular expressions

    The two patterns of the source are anchored at both ends and use only
    literals, classes, alternation and bounded repetition. *)

Module RegExp.

Inductive regex : Type :=
| Void
| Eps
| Class (p : N → bool)
| Cat (r1 r2 : regex)
| Alt (r1 r2 : regex).

Definition chr (c : N) : regex := Class (N.eqb c).

Definition str (s : string) : regex :=
  foldr (fun c r => Cat (chr c) r) Eps (lit s).

Definition oneOf (s : string) : regex :=
  Class (fun c => existsb (N.eqb c) (lit s)).

Fixpoint times (n : nat) (r : regex) : regex :=
  match n with
  | O => Eps
  | S n' => Cat r (times n' r)
  end.

(** The strings a pattern denotes. *)
Inductive lang : regex → jsstring → Prop :=
| lang_Eps : lang Eps []
| lang_Class p c : p c = true → lang (Class p) [c]
| lang_Cat r1 r2 s1 s2 :
    lang r1 s1 → lang r2 s2 → lang (Cat r1 r2) (s1 ++ s2)
| lang_Alt_l r1 r2 s : lang r1 s → lang (Alt r1 r2) s
| lang_Alt_r r1 r2 s : lang r2 s → lang (Alt r1 r2) s.

(** Matching by derivatives. *)
Fixpoint nullable (r : regex) : bool :=
  match r with
  | Void => false
  | Eps => true
  | Class _ => false
  | Cat r1 r2 => nullable r1 && nullable r2
  | Alt r1 r2 => nullable r1 || nullable r2
  end.

Fixpoint deriv (c : N) (r : regex) : regex :=
  match r with
  | Void => Void
  | Eps => Void
  | Class p => if p c then Eps else Void
  | Cat r1 r2 =>
      if nullable r1
      then Alt (Cat (deriv c r1) r2) (deriv c r2)
      else Cat (deriv c r1) r2
  | Alt r1 r2 => Alt (deriv c r1) (deriv c r2)
  end.

(** [/^r$/.test(s)] *)
Definition test (r : regex) (s : jsstring) : bool :=
  nullable (foldl (fun r c => deriv c r) r s).

End RegExp.

(** [/^(\+254|0)[17]\d{8}$/] *)
Definition PHONE_PATTERN : RegExp.regex :=
  RegExp.Cat (RegExp.Alt (RegExp.str "+254") (RegExp.str "0"))
    (RegExp.Cat (RegExp.oneOf "17") (RegExp.times 8 (RegExp.Class isDigit))).

(** [/^[A-Z]{3}\s[0-9]{3}[A-Z]$/] *)
Definition PLATE_PATTERN : RegExp.regex :=
  RegExp.Cat (RegExp.times 3 (RegExp.Class isUpper))
    (RegExp.Cat (RegExp.Class isWhiteSpace)
       (RegExp.Cat (RegExp.times 3 (RegExp.Class isDigit))
          (RegExp.Class isUpper))).

(** ** FormValidator *)

Record FormValidation : Type := mkValidation {
  isValid : bool;
  errors : gmap string string
}.

Module FormValidator.

(** [!v?.trim()]: the field is missing ([null]) or blank. *)
Definition blank (v : option jsstring) : bool :=
  match v with
  | Some s => bool_decide (trim s = [])
  | None => true
  end.

(** A field that is known not to be [null]. *)
Definition the (v : option jsstring) : jsstring := default [] v.

Definition finish (errors : gmap string string) : FormValidation :=
  mkValidation (Nat.eqb (size errors) 0) errors.

Definition validateVehicleForm (formData : gmap string jsstring)
    : FormValidation :=
  let errors : gmap string string := ∅ in
  let name := formData !! "vehicleName" in
  let numberPlate := formData !! "numberPlate" in
  let capacity := formData !! "capacity" in
  let route := formData !! "route" in
  let errors :=
    if blank name
    then <["vehicleName" := "Vehicle name is required"]> errors
    else errors in
  let errors :=
    if blank numberPlate
    then <["numberPlate" := "Number plate is required"]> errors
    else if negb (RegExp.test PLATE_PATTERN (trim (the numberPlate)))
    then <["numberPlate" := "Invalid number plate format (e.g., KCA 123A)"]> errors
    else errors in
  let errors :=
    if blank capacity
    then <["capacity" := "Capacity is required"]> errors
    else
      let capacityNum := parseInt (the capacity) in
      match capacityNum with
      | None => <["capacity" := "Capacity must be between 1 and 100"]> errors
      | Some n =>
          if (n <? 1) || (n >? 100)
          then <["capacity" := "Capacity must be between 1 and 100"]> errors
          else errors
      end in
  let errors :=
    if blank route
    then <["route" := "Route is required"]> errors
    else errors in
  finish errors.

Section WithParseFloat.

(** [parseFloat] yields a double; the validators only ask whether the
    result is [NaN] or negative.  That test is a parameter here:
    [isNaN(x) || x < 0] for [x = parseFloat(s)]. *)
Variable parseFloat_isNaN_or_negative : jsstring → bool.

Definition validateTicketForm (formData : gmap string jsstring)
    : FormValidation :=
  let errors : gmap string string := ∅ in
  let vehicleId := formData !! "ticketVehicleId" in
  let customerName := formData !! "customerName" in
  let phoneNumber := formData !! "phoneNumber" in
  let route := formData !! "ticketRoute" in
  let amount := formData !! "ticketAmount" in
  let seatNumber := formData !! "seatNumber" in
  let cashier := formData !! "cashier" in
  let errors :=
    if bool_decide (the vehicleId = [])
    then <["ticketVehicleId" := "Please select a vehicle"]> errors
    else errors in
  let errors :=
    if blank customerName
    then <["customerName" := "Customer name is required"]> errors
    else errors in
  let errors :=
    if blank phoneNumber
    then <["phoneNumber" := "Phone number is required"]> errors
    else if negb (RegExp.test PHONE_PATTERN (trim (the phoneNumber)))
    then <["phoneNumber" := "Invalid phone number format"]> errors
    else errors in
  let errors :=
    if blank route
    then <["ticketRoute" := "Route is required"]> errors
    else errors in
  let errors :=
    if blank amount
    then <["ticketAmount" := "Amount is required"]> errors
    else if parseFloat_isNaN_or_negative (the amount)
    then <["ticketAmount" := "Amount must be a positive number"]> errors
    else errors in
  let errors :=
    if blank seatNumber
    then <["seatNumber" := "Seat number is required"]> errors
    else
      let seatNum := parseInt (the seatNumber) in
      match seatNum with
      | None => <["seatNumber" := "Seat number must be a positive integer"]> errors
      | Some n =>
          if n <? 1
          then <["seatNumber" := "Seat number must be a positive integer"]> errors
          else errors
      end in
  let errors :=
    if blank cashier
    then <["cashier" := "Cashier name is required"]> errors
    else errors in
  finish errors.

Definition validateParcelForm (formData : gmap string jsstring)
    : FormValidation :=
  let errors : gmap string string := ∅ in
  let description := formData !! "parcelDescription" in
  let origin := formData !! "origin" in
  let destination := formData !! "destination" in
  let charge := formData !! "charge" in
  let senderName := formData !! "senderName" in
  let senderPhone := formData !! "senderPhone" in
  let receiverName := formData !! "receiverName" in
  let receiverPhone := formData !! "receiverPhone" in
  let errors :=
    if blank description
    then <["parcelDescription" := "Description is required"]> errors
    else errors in
  let errors :=
    if blank origin
    then <["origin" := "Origin is required"]> errors
    else errors in
  let errors :=
    if blank destination
    then <["destination" := "Destination is required"]> errors
    else errors in
  let errors :=
    if blank charge
    then <["charge" := "Charge is required"]> errors
    else if parseFloat_isNaN_or_negative (the charge)
    then <["charge" := "Charge must be a positive number"]> errors
    else errors in
  let errors :=
    if blank senderName
    then <["senderName" := "Sender name is required"]> errors
    else errors in
  let errors :=
    if blank senderPhone
    then <["senderPhone" := "Sender phone is required"]> errors
    else if negb (RegExp.test PHONE_PATTERN (trim (the senderPhone)))
    then <["senderPhone" := "Invalid sender phone format"]> errors
    else errors in
  let errors :=
    if blank receiverName
    then <["receiverName" := "Receiver name is required"]> errors
    else errors in
  let errors :=
    if blank receiverPhone
    then <["receiverPhone" := "Receiver phone is required"]> errors
    else if negb (RegExp.test PHONE_PATTERN (trim (the receiverPhone)))
    then <["receiverPhone" := "Invalid receiver phone format"]> errors
    else errors in
  finish errors.

End WithParseFloat.

End FormValidator.

(** ** Vocabulary of the properties *)

(** What an operation appended to the trace between two worlds. *)
Definition emitted (w w' : world) : list event :=
  drop (length (trace w)) (trace w').

(** Calls of the notification component: what the user gets to see. *)
Definition isNotification (e : event) : bool :=
  match e with NotificationShow _ => true | _ => false end.

(** Warning-level emissions: [console.warn] and toasts of type warning. *)
Definition isWarning (e : event) : bool :=
  match e with
  | ConsoleWarn _ => true
  | NotificationShow t =>
      match type t with ToastType.warning => true | _ => false end
  | _ => false
  end.

(** Accesses to the Local Cache. *)
Definition isCacheAccess (e : event) : bool :=
  match e with
  | GetItem _ | SetItem _ | RemoveItem _ => true
  | _ => false
  end.

Definition notifications (evs : list event) : list event :=
  List.filter isNotification evs.

Definition warnings (evs : list event) : list event :=
  List.filter isWarning evs.

Definition cacheAccesses (evs : list event) : list event :=
  List.filter isCacheAccess evs.

(** The result and the final world of running a computation. *)
Definition result {A} (m : M A) (w : world) : completion A := (m w).1.
Definition after {A} (m : M A) (w : world) : world := (m w).2.

(** The Local Cache of the specification: [load] is what
    [getFromLocalStorage] returns, [save] the effect of
    [saveToLocalStorage] on the world. *)
Definition load (endpoint : string) (w : world) : completion json :=
  result (ApiClient.getFromLocalStorage endpoint) w.

Definition save (endpoint : string) (record : json) (w : world) : world :=
  after (ApiClient.saveToLocalStorage endpoint record) w.

(** ** Sample values of the scenarios *)

Module Scenario.

(** A request aborted by the 5000 ms timeout. *)
Definition timed_out : AxiosError :=
  mkError (Some "ECONNABORTED") None "timeout of 5000ms exceeded".

(** A response with status 500. *)
Definition server_error : AxiosError :=
  mkError (Some "ERR_BAD_RESPONSE") (Some (mkResponse JNull 500))
    "Request failed with status code 500".

Definition vehicle (id name : string) : json :=
  JObj {[ "id" := JStr id; "name" := JStr name ]}.

Definition two_vehicles : list json :=
  [vehicle "1" "Matatu A"; vehicle "2" "Matatu B"].

(** A browser whose cache holds two vehicles. *)
Definition cached_vehicles : world :=
  mkWorld {[ STORAGE_KEYS.VEHICLES := two_vehicles ]} [].

Definition fresh : world := mkWorld ∅ [].

Definition new_vehicle : gmap string json :=
  {[ "name" := JStr "Matatu C"; "capacity" := JNum 14 ]}.

(** What the server answers to a successful [POST /vehicles]. *)
Definition created : AxiosResponse :=
  mkResponse (JObj {[ "vehicle_id" := JStr "v-77" ]}) 201.

End Scenario.

(** ** Vocabulary of the validation rules *)

(** The phone numbers of the specification, in its words: [+254] or a
    leading [0], followed by [7] or [1], then 8 digits. *)
Definition isKenyanMobile (s : jsstring) : Prop :=
  ∃ (d : N) (ds : jsstring),
    (s = lit "+254" ++ d :: ds ∨ s = lit "0" ++ d :: ds)
    ∧ (d = 55%N ∨ d = 49%N)
    ∧ length ds = 8%nat
    ∧ List.Forall (fun c => isDigit c = true) ds.

(** What a validator does with a phone field: [err] is the entry of the
    field in the errors it returns for the value [input] of the field,
    [required] and [format] are the two messages of the field. *)
Definition phoneFieldRule (input : option jsstring) (err : option string)
    (required format : string) : Prop :=
  (∀ s, input = Some s → RegExp.test PHONE_PATTERN s = true → err = None)
  ∧ (err = None
     ↔ ∃ s, input = Some s ∧ RegExp.test PHONE_PATTERN (trim s) = true)
  ∧ (err = Some required ↔ input = None ∨ ∃ s, input = Some s ∧ trim s = [])
  ∧ (err = Some format
     ↔ ∃ s, input = Some s ∧ trim s ≠ []
            ∧ RegExp.test PHONE_PATTERN (trim s) = false)
  ∧ required ≠ format.

(** Reading digits stops at the first code unit that is not a digit:
    [rest] is what may follow a numeral. *)
Definition stops (rest : jsstring) : Prop :=
  match rest with
  | c :: _ => isDigit c = false
  | [] => True
  end.

(** ** Sessions of the data-access layer *)

(** One call of the data-access layer, with what the network and the
    clock do during the call. *)
Inductive operation : Type :=
| Read (net : Axios.outcome) (endpoint : string)
| Write (net : Axios.outcome) (now : Z) (endpoint : string)
    (data : gmap string json).

Definition perform (op : operation) : M json :=
  match op with
  | Read net endpoint => ApiClient.get net endpoint
  | Write net now endpoint data => ApiClient.post net now endpoint data
  end.

(** The world after a series of calls, one after the other; a call that
    raises does not stop the next one. *)
Definition session (ops : list operation) (w : world) : world :=
  foldl (fun w op => after (perform op) w) w ops.

(** The record the offline branch of [post] stores for a payload. *)
Definition mockData (now : Z) (data : gmap string json) : json :=
  JObj (<["id" := JStr (Number_toString now)]> data).

(** The record that a call queues in the collection [key]: the one of a
    write that fails with a connectivity failure on the path of the
    collection. *)
Definition queuedBy (key : string) (op : operation) : list json :=
  match op with
  | Write (Rejected error) now endpoint data =>
      if ApiClient.isConnectionError error
         && bool_decide (ApiClient.getStorageKey endpoint = Some key)
      then [mockData now data]
      else []
  | _ => []
  end.

(** The records that a series of calls queues in the collection [key]. *)
Definition queued (key : string) (ops : list operation) : list json :=
  flat_map (queuedBy key) ops.

(** The same outcome of a request with the body of the response, if there
    is a response, replaced by [null]. *)
Definition withoutBody (net : Axios.outcome) : Axios.outcome :=
  let blank (r : AxiosResponse) := mkResponse JNull (Axios.status r) in
  match net with
  | Resolved r => Resolved (blank r)
  | Rejected error =>
      Rejected (mkError (Axios.code error) (blank <$> Axios.response error)
                  (Axios.message error))
  end.

(** The same call with nothing in the answer of the server. *)
Definition unanswered (op : operation) : operation :=
  match op with
  | Read net endpoint => Read (withoutBody net) endpoint
  | Write net now endpoint data => Write (withoutBody net) now endpoint data
  end.

(** Events that change the Local Cache. *)
Definition isCacheWrite (e : event) : bool :=
  match e with
  | SetItem _ | RemoveItem _ => true
  | _ => false
  end.

(** The messages of the toasts of the data-access layer. *)
Definition toastMessages (evs : list event) : list string :=
  omap (fun e => match e with
                 | NotificationShow t => Some (toast_message t)
                 | _ => None
                 end) evs.

(** A series of offline writes on one resource path: the clock reading
    and the payload of each write, in the order of the writes. *)
Definition offlineWrites (error : AxiosError) (endpoint : string)
    (writes : list (Z * gmap string json)) : list operation :=
  (fun write => Write (Rejected error) write.1 endpoint write.2) <$> writes.

(** ** More vocabulary of the validation rules *)

(** The number plates of the pattern: three capital letters, one
    white-space character (any of those [\s] matches, not only the space),
    three digits and one capital letter. *)
Definition isNumberPlate (s : jsstring) : Prop :=
  ∃ l1 l2 l3 sp d1 d2 d3 l4 : N,
    s = [l1; l2; l3; sp; d1; d2; d3; l4]
    ∧ isUpper l1 = true ∧ isUpper l2 = true ∧ isUpper l3 = true
    ∧ isWhiteSpace sp = true
    ∧ isDigit d1 = true ∧ isDigit d2 = true ∧ isDigit d3 = true
    ∧ isUpper l4 = true.

(** [phoneFieldRule] for any pattern. *)
Definition patternFieldRule (pattern : RegExp.regex)
    (input : option jsstring) (err : option string)
    (required format : string) : Prop :=
  (∀ s, input = Some s → RegExp.test pattern s = true → err = None)
  ∧ (err = None ↔ ∃ s, input = Some s ∧ RegExp.test pattern (trim s) = true)
  ∧ (err = Some required ↔ input = None ∨ ∃ s, input = Some s ∧ trim s = [])
  ∧ (err = Some format
     ↔ ∃ s, input = Some s ∧ trim s ≠ []
            ∧ RegExp.test pattern (trim s) = false)
  ∧ required ≠ format.

(** The checks of the three validators: each field that is checked, with
    whether its value passes. *)
Definition vehicleChecks (formData : gmap string jsstring)
    : list (string * bool) :=
  [ ("vehicleName", negb (FormValidator.blank (formData !! "vehicleName")));
    ("numberPlate",
      negb (FormValidator.blank (formData !! "numberPlate"))
      && RegExp.test PLATE_PATTERN
           (trim (FormValidator.the (formData !! "numberPlate"))));
    ("capacity",
      negb (FormValidator.blank (formData !! "capacity"))
      && match parseInt (FormValidator.the (formData !! "capacity")) with
         | Some n => negb ((n <? 1) || (n >? 100))
         | None => false
         end);
    ("route", negb (FormValidator.blank (formData !! "route"))) ].

Definition ticketChecks (parseFloat_isNaN_or_negative : jsstring → bool)
    (formData : gmap string jsstring) : list (string * bool) :=
  [ ("ticketVehicleId",
      negb (bool_decide (FormValidator.the (formData !! "ticketVehicleId") = [])));
    ("customerName", negb (FormValidator.blank (formData !! "customerName")));
    ("phoneNumber",
      negb (FormValidator.blank (formData !! "phoneNumber"))
      && RegExp.test PHONE_PATTERN
           (trim (FormValidator.the (formData !! "phoneNumber"))));
    ("ticketRoute", negb (FormValidator.blank (formData !! "ticketRoute")));
    ("ticketAmount",
      negb (FormValidator.blank (formData !! "ticketAmount"))
      && negb (parseFloat_isNaN_or_negative
                 (FormValidator.the (formData !! "ticketAmount"))));
    ("seatNumber",
      negb (FormValidator.blank (formData !! "seatNumber"))
      && match parseInt (FormValidator.the (formData !! "seatNumber")) with
         | Some n => negb (n <? 1)
         | None => false
         end);
    ("cashier", negb (FormValidator.blank (formData !! "cashier"))) ].

Definition parcelChecks (parseFloat_isNaN_or_negative : jsstring → bool)
    (formData : gmap string jsstring) : list (string * bool) :=
  [ ("parcelDescription",
      negb (FormValidator.blank (formData !! "parcelDescription")));
    ("origin", negb (FormValidator.blank (formData !! "origin")));
    ("destination", negb (FormValidator.blank (formData !! "destination")));
    ("charge",
      negb (FormValidator.blank (formData !! "charge"))
      && negb (parseFloat_isNaN_or_negative
                 (FormValidator.the (formData !! "charge"))));
    ("senderName", negb (FormValidator.blank (formData !! "senderName")));
    ("senderPhone",
      negb (FormValidator.blank (formData !! "senderPhone"))
      && RegExp.test PHONE_PATTERN
           (trim (FormValidator.the (formData !! "senderPhone"))));
    ("receiverName", negb (FormValidator.blank (formData !! "receiverName")));
    ("receiverPhone",
      negb (FormValidator.blank (formData !! "receiverPhone"))
      && RegExp.test PHONE_PATTERN
           (trim (FormValidator.the (formData !! "receiverPhone")))) ].

(** What a validator does with its checks: it is valid exactly when every
    check passes, and its errors have an entry for exactly the fields
    whose check fails. *)
Definition collectsAll (validation : FormValidation)
    (checks : list (string * bool)) : Prop :=
  (∀ field, is_Some (errors validation !! field) ↔ In (field, false) checks)
  ∧ (isValid validation = true ↔ ∀ field ok, In (field, ok) checks → ok = true).

(** ** The variant without the offline fallback

    The other copy of the application ([src/app.ts]) has a data-access
    layer that only forwards to axios, and validators that call
    [parseInt] without a radix. *)

Module Plain.

(** [handleError]: a toast for the statuses 500 and 404 only. *)
Definition handleError (error : AxiosError) : M unit :=
  console_error "API Error:" error;;
  if match Axios.response error with
     | Some r => Axios.status r =? 500
     | None => false
     end
  then NotificationManager.show
         (mkToast ToastType.error "Server error. Please try again later.")
  else if match Axios.response error with
          | Some r => Axios.status r =? 404
          | None => false
          end
  then NotificationManager.show (mkToast ToastType.error "Resource not found.")
  else mret tt.

Definition get (net : Axios.outcome) (endpoint : string) : M json :=
  try_catch
    (response ← await net;
     mret (Axios.data response))
    (fun error => handleError error;; throw error).

Definition post (net : Axios.outcome) (endpoint : string)
    (data : gmap string json) : M json :=
  try_catch
    (response ← await net;
     mret (Axios.data response))
    (fun error => handleError error;; throw error).

(** The value of a hexadecimal digit. *)
Definition hexDigit (c : N) : option Z :=
  if isDigit c then Some (Z.of_N c - 48)
  else if ((97 <=? c) && (c <=? 102))%N then Some (Z.of_N c - 87)
  else if ((65 <=? c) && (c <=? 70))%N then Some (Z.of_N c - 55)
  else None.

(** The longest prefix of hexadecimal digits, read as a number. *)
Fixpoint hexDigits (s : jsstring) (acc : option Z) : option Z :=
  match s with
  | c :: rest =>
      match hexDigit c with
      | Some d => hexDigits rest (Some (16 * default 0 acc + d))
      | None => acc
      end
  | [] => acc
  end.

(** [parseInt(s)] without a radix: as with radix 10, except that after
    the sign a prefix [0x] or [0X] ([0] is 48, [x] is 120, [X] is 88)
    makes the rest hexadecimal. *)
Definition parseInt (s : jsstring) : option Z :=
  let unsigned (u : jsstring) : option Z :=
    match u with
    | z :: x :: rest =>
        if ((z =? 48) && ((x =? 120) || (x =? 88)))%N
        then hexDigits rest None
        else digits u None
    | _ => digits u None
    end in
  match trimStart s with
  | c :: rest =>
      if (c =? 45)%N then Z.opp <$> unsigned rest
      else if (c =? 43)%N then unsigned rest
      else unsigned (c :: rest)
  | [] => None
  end.

Definition validateVehicleForm (formData : gmap string jsstring)
    : FormValidation :=
  let errors : gmap string string := ∅ in
  let name := formData !! "vehicleName" in
  let numberPlate := formData !! "numberPlate" in
  let capacity := formData !! "capacity" in
  let route := formData !! "route" in
  let errors :=
    if FormValidator.blank name
    then <["vehicleName" := "Vehicle name is required"]> errors
    else errors in
  let errors :=
    if FormValidator.blank numberPlate
    then <["numberPlate" := "Number plate is required"]> errors
    else if negb (RegExp.test PLATE_PATTERN
                    (trim (FormValidator.the numberPlate)))
    then <["numberPlate" := "Invalid number plate format (e.g., KCA 123A)"]> errors
    else errors in
  let errors :=
    if FormValidator.blank capacity
    then <["capacity" := "Capacity is required"]> errors
    else
      let capacityNum := parseInt (FormValidator.the capacity) in
      match capacityNum with
      | None => <["capacity" := "Capacity must be between 1 and 100"]> errors
      | Some n =>
          if (n <? 1) || (n >? 100)
          then <["capacity" := "Capacity must be between 1 and 100"]> errors
          else errors
      end in
  let errors :=
    if FormValidator.blank route
    then <["route" := "Route is required"]> errors
    else errors in
  FormValidator.finish errors.

End Plain.

(** The part of a numeric string that comes after the white space and
    the sign. *)
Definition unsignedPart (s : jsstring) : jsstring :=
  match trimStart s with
  | c :: rest => if ((c =? 45) || (c =? 43))%N then rest else c :: rest
  | [] => []
  end.

(** The string has the prefix that makes [parseInt] without a radix read
    it as hexadecimal. *)
Definition hasHexPrefix (s : jsstring) : bool :=
  match unsignedPart s with
  | z :: x :: _ => ((z =? 48) && ((x =? 120) || (x =? 88)))%N
  | _ => false
  end.

(** The network has answered: with a response, or with an error response
    of status 500 or 404 and no sign of a connectivity failure. *)
Definition serverAnswers (net : Axios.outcome) : Prop :=
  match net with
  | Resolved _ => True
  | Rejected error =>
      ApiClient.isConnectionError error = false
      ∧ ∃ r, Axios.response error = Some r
             ∧ (Axios.status r = 500 ∨ Axios.status r = 404)
  end.

(** ** Numbers in a payload *)

(** The Number value of an integer: the integer itself up to 2^53, above
    that the nearest integer with 53 significant bits, the even one of two
    that are as near; [None] is an infinity, from 2^1024 - 2^970 on.
    ([parseInt] may round a numeral of more than 20 significant digits
    otherwise; the engines round the integer that the numeral denotes.) *)
Definition Number_ofInteger (n : Z) : option Z :=
  let a := Z.abs n in
  if a <? 2 ^ 53 then Some n
  else
    let e := Z.log2 a - 52 in
    let q := Z.shiftr a e in
    let r := Z.land a (Z.ones e) in
    let half := Z.shiftl 1 (e - 1) in
    let q' := if (half <? r) || ((r =? half) && Z.odd q) then q + 1 else q in
    let m := Z.shiftl q' e in
    if m <? 2 ^ 1024 then Some (Z.sgn n * m) else None.

(** ** The controller: TransportManagementSystem

    The handlers of the three forms and the loading of the vehicles.  The
    page is taken to have all its elements (the guards at the head of the
    handlers pass); [event.preventDefault()] is left out.  What a handler
    does to the page is logged in order: the requests it sends, what the
    data layer and the notification component do, and what it writes to
    the DOM. *)

Module Controller.

(** What a [catch] block of the controller may receive: an error of axios
    that the data layer has raised again, or a [TypeError] of the
    controller's own code. *)
Inductive exn : Type :=
| AxiosFailure (e : AxiosError)
| TypeError.

(** [Browser]: an event of the data layer or of the notification
    component.  [Request]: a call of axios.  [ConsoleErrorOf]:
    [console.error(label, error)].  [DisplayErrors]:
    [FormValidator.displayErrors].  [SetButtonLoading]:
    [LoadingManager.setButtonLoading] on the submit button of a form.
    [Reset]: [form.reset()].  [ClearSelects]: both selects are set to the
    default option.  [AppendOption]: an option is appended to both
    selects. *)
Inductive effect : Type :=
| Browser (e : event)
| Request (method endpoint : string) (body : option (gmap string json))
| ConsoleErrorOf (label : string) (x : exn)
| DisplayErrors (errors : gmap string string)
| SetButtonLoading (form : string) (loading : bool)
| Reset (form : string)
| SetTextContent (element text : string)
| ClearSelects
| AppendOption (value text : string).

Record page : Type := mkPage {
  storage : gmap string (list json);
  log : list effect
}.

Inductive outcome (A : Type) : Type :=
| Done (a : A)
| Raised (x : exn).
Arguments Done {A} a.
Arguments Raised {A} x.

Definition U (A : Type) : Type := page → outcome A * page.

#[global] Instance U_ret : MRet U := fun A a p => (Done a, p).

#[global] Instance U_bind : MBind U := fun A B k m p =>
  match m p with
  | (Done a, p') => k a p'
  | (Raised x, p') => (Raised x, p')
  end.

Definition raise {A} (x : exn) : U A := fun p => (Raised x, p).

Definition tell (e : effect) : U unit :=
  fun p => (Done tt, mkPage (storage p) (log p ++ [e])).

(** [try { body } catch (error) { handler }] *)
Definition try_catch_ {A} (body : U A) (handler : exn → U A) : U A :=
  fun p =>
    match body p with
    | (Done a, p') => (Done a, p')
    | (Raised x, p') => handler x p'
    end.

(** [try { body } finally { finalizer }] *)
Definition try_finally_ {A} (body : U A) (finalizer : U unit) : U A :=
  fun p =>
    match body p with
    | (r, p') =>
        match finalizer p' with
        | (Done _, p'') => (r, p'')
        | (Raised x, p'') => (Raised x, p'')
        end
    end.

(** A computation of the data layer, run in the page: it works on the
    storage of the page, and what it appends to its trace is appended to
    the log. *)
Definition lift {A} (m : M A) : U A :=
  fun p =>
    match m (mkWorld (storage p) []) with
    | (Normal a, w) =>
        (Done a, mkPage (localStorage w) (log p ++ (Browser <$> trace w)))
    | (Throw e, w) =>
        (Raised (AxiosFailure e),
         mkPage (localStorage w) (log p ++ (Browser <$> trace w)))
    end.

(** [String(v)], as a template literal and the DOM compute it; [None] is
    a [TypeError]: an object with a [toString] of its own, which is no
    function, cannot be converted. *)
Fixpoint ToString (v : json) : option string :=
  match v with
  | JNull => Some "null"
  | JBool b => Some (if b then "true" else "false")
  | JNum n => Some (Number_toString n)
  | JStr s => Some s
  | JArr l =>
      (fix join (l : list json) : option string :=
         match l with
         | [] => Some ""
         | x :: rest =>
             match match x with JNull => Some "" | _ => ToString x end with
             | Some s =>
                 match rest with
                 | [] => Some s
                 | _ => match join rest with
                        | Some r => Some (s +:+ "," +:+ r)
                        | None => None
                        end
                 end
             | None => None
             end
         end) l
  | JObj o =>
      if bool_decide (is_Some (o !! "toString")) then None
      else Some "[object Object]"
  end.

(** [`${v}`]; [None] is [undefined]. *)
Definition template (v : option json) : U string :=
  match v with
  | None => mret "undefined"
  | Some v =>
      match ToString v with
      | Some s => mret s
      | None => raise TypeError
      end
  end.

(** [v.key] for a key that no prototype has: a [TypeError] on [null],
    the property of an object, [undefined] on anything else. *)
Definition prop (v : json) (key : string) : U (option json) :=
  match v with
  | JNull => raise TypeError
  | JObj o => mret (o !! key)
  | _ => mret None
  end.

(** [element.textContent = v]: [null] and [undefined] give the empty
    string. *)
Definition setTextContent (element : string) (v : option json) : U unit :=
  match v with
  | None | Some JNull => tell (SetTextContent element "")
  | Some v => text ← template (Some v); tell (SetTextContent element text)
  end.

(** [error.response?.data?.message || fallback] *)
Definition errorDetail (error : exn) (fallback : string) : option json :=
  let message :=
    match error with
    | AxiosFailure e =>
        match Axios.response e with
        | Some r =>
            match Axios.data r with
            | JObj o => o !! "message"
            | _ => None
            end
        | None => None
        end
    | TypeError => None
    end in
  match message with
  | Some v => if truthy v then Some v else Some (JStr fallback)
  | None => Some (JStr fallback)
  end.

(** [NotificationManager.show({ type, message })] *)
Definition show (type : ToastType.t) (message : string) : U unit :=
  lift (NotificationManager.show (mkToast type message)).

Definition API_BASE_URL : string := "http://localhost:5000/api".

(** [this.api.get(endpoint)]: the request, then what [ApiClient.get] does
    with its outcome. *)
Definition api_get (net : Axios.outcome) (endpoint : string) : U json :=
  tell (Request "GET" (API_BASE_URL +:+ endpoint) None);;
  lift (ApiClient.get net endpoint).

Definition api_post (net : Axios.outcome) (now : Z) (endpoint : string)
    (data : gmap string json) : U json :=
  tell (Request "POST" (API_BASE_URL +:+ endpoint) (Some data));;
  lift (ApiClient.post net now endpoint data).

(** The body of the [forEach] of [populateVehicleSelects]. *)
Definition appendVehicle (vehicle : json) : U unit :=
  id ← prop vehicle "id";
  value ← template id;
  name ← prop vehicle "name";
  name ← template name;
  number_plate ← prop vehicle "number_plate";
  number_plate ← template number_plate;
  tell (AppendOption value (name +:+ " (" +:+ number_plate +:+ ")")).

(** [vehicles.forEach(...)] on an array. *)
Fixpoint forEach (vehicles : list json) : U unit :=
  match vehicles with
  | [] => mret tt
  | vehicle :: rest => appendVehicle vehicle;; forEach rest
  end.

(** [populateVehicleSelects]: [forEach] is a function of arrays only. *)
Definition populateVehicleSelects (vehicles : json) : U unit :=
  tell ClearSelects;;
  match vehicles with
  | JArr l => forEach l
  | _ => raise TypeError
  end.

(** [loadVehicles]: [net] is the outcome of the read of the vehicles. *)
Definition loadVehicles (net : Axios.outcome) : U unit :=
  try_catch_
    (vehicles ← api_get net "/vehicles";
     populateVehicleSelects vehicles)
    (fun error =>
       tell (ConsoleErrorOf "Error loading vehicles:" error);;
       show ToastType.error "Failed to load vehicles. Using local data.";;
       localVehicles ← lift (ApiClient.getFromLocalStorage "/vehicles");
       populateVehicleSelects
         (if truthy localVehicles then localVehicles else JArr [])).

Section Forms.

(** The JSON string a value of a form is sent as, and the JSON number
    [parseFloat] of a value is sent as. *)
Variable encode : jsstring → string.
Variable parseFloat : jsstring → json.
Variable parseFloat_isNaN_or_negative : jsstring → bool.

(** [formData.get(name) as string] in a payload. *)
Definition field (formData : gmap string jsstring) (name : string) : json :=
  match formData !! name with
  | Some s => JStr (encode s)
  | None => JNull
  end.

(** [parseInt(formData.get(name) as string, 10)] in a payload.  The
    payload is only ever serialised, by axios for the request and by
    [saveToLocalStorage] for the cache: the Number that [parseInt] returns
    is sent and stored as its value, and [NaN] and the infinities as
    [null]. *)
Definition intField (formData : gmap string jsstring) (name : string) : json :=
  match parseInt (FormValidator.the (formData !! name)) with
  | Some n =>
      match Number_ofInteger n with
      | Some d => JNum d
      | None => JNull
      end
  | None => JNull
  end.

Definition floatField (formData : gmap string jsstring) (name : string) : json :=
  parseFloat (FormValidator.the (formData !! name)).

Definition vehicleData (formData : gmap string jsstring) : gmap string json :=
  {[ "name" := field formData "vehicleName";
     "number_plate" := field formData "numberPlate";
     "capacity" := intField formData "capacity";
     "route" := field formData "route" ]}.

Definition ticketData (formData : gmap string jsstring) : gmap string json :=
  {[ "vehicle_id" := field formData "ticketVehicleId";
     "customer_name" := field formData "customerName";
     "phone_number" := field formData "phoneNumber";
     "route" := field formData "ticketRoute";
     "amount" := floatField formData "ticketAmount";
     "seat_number" := intField formData "seatNumber";
     "cashier" := field formData "cashier" ]}.

Definition parcelData (formData : gmap string jsstring) : gmap string json :=
  {[ "description" := field formData "parcelDescription";
     "origin" := field formData "origin";
     "destination" := field formData "destination";
     "charge" := floatField formData "charge";
     "sender_name" := field formData "senderName";
     "sender_phone" := field formData "senderPhone";
     "receiver_name" := field formData "receiverName";
     "receiver_phone" := field formData "receiverPhone" ]}.

(** The [catch] block of the three handlers. *)
Definition reportFailure (fallback : string) (error : exn) : U unit :=
  message ← template (errorDetail error fallback);
  show ToastType.error ("Error: " +:+ message).

(** [handleVehicleRegistration]: [formData] is the content of the form,
    [post_net] and [load_net] the outcomes of the request of the
    registration and of the reload of the vehicles. *)
Definition handleVehicleRegistration (formData : gmap string jsstring)
    (post_net : Axios.outcome) (now : Z) (load_net : Axios.outcome) : U unit :=
  let validation := FormValidator.validateVehicleForm formData in
  if negb (isValid validation) then
    tell (DisplayErrors (errors validation))
  else
    tell (SetButtonLoading "vehicle-form" true);;
    try_finally_
      (try_catch_
         (response ← api_post post_net now "/vehicles" (vehicleData formData);
          vehicle_id ← prop response "vehicle_id";
          vehicle_id ← template vehicle_id;
          show ToastType.success
            ("Vehicle registered successfully! ID: " +:+ vehicle_id);;
          tell (Reset "vehicle-form");;
          tell (DisplayErrors ∅);;
          loadVehicles load_net)
         (reportFailure "Failed to register vehicle"))
      (tell (SetButtonLoading "vehicle-form" false)).

(** [handleTicketIssuance]: [receipt_net] is the outcome of the request
    of the receipt. *)
Definition handleTicketIssuance (formData : gmap string jsstring)
    (post_net : Axios.outcome) (now : Z) (receipt_net : Axios.outcome)
    : U unit :=
  let validation :=
    FormValidator.validateTicketForm parseFloat_isNaN_or_negative formData in
  if negb (isValid validation) then
    tell (DisplayErrors (errors validation))
  else
    tell (SetButtonLoading "ticket-form" true);;
    try_finally_
      (try_catch_
         (ticket ← api_post post_net now "/tickets" (ticketData formData);
          receipt_id ← prop ticket "receipt_id";
          receipt_id ← template receipt_id;
          receipt ← api_get receipt_net ("/receipts/" +:+ receipt_id);
          text ← prop receipt "receipt";
          setTextContent "receipt-output" text;;
          ticket_id ← prop ticket "ticket_id";
          ticket_id ← template ticket_id;
          show ToastType.success
            ("Ticket issued successfully! ID: " +:+ ticket_id);;
          tell (Reset "ticket-form");;
          tell (DisplayErrors ∅))
         (reportFailure "Failed to issue ticket"))
      (tell (SetButtonLoading "ticket-form" false)).

(** [handleParcelPosting] *)
Definition handleParcelPosting (formData : gmap string jsstring)
    (post_net : Axios.outcome) (now : Z) (receipt_net : Axios.outcome)
    : U unit :=
  let validation :=
    FormValidator.validateParcelForm parseFloat_isNaN_or_negative formData in
  if negb (isValid validation) then
    tell (DisplayErrors (errors validation))
  else
    tell (SetButtonLoading "parcel-form" true);;
    try_finally_
      (try_catch_
         (parcel ← api_post post_net now "/parcels" (parcelData formData);
          receipt_id ← prop parcel "receipt_id";
          receipt_id ← template receipt_id;
          receipt ← api_get receipt_net ("/receipts/" +:+ receipt_id);
          text ← prop receipt "receipt";
          setTextContent "parcel-receipt-output" text;;
          parcel_id ← prop parcel "parcel_id";
          parcel_id ← template parcel_id;
          show ToastType.success
            ("Parcel posted successfully! ID: " +:+ parcel_id);;
          tell (Reset "parcel-form");;
          tell (DisplayErrors ∅))
         (reportFailure "Failed to post parcel"))
      (tell (SetButtonLoading "parcel-form" false)).

End Forms.

End Controller.

(** ** Vocabulary of the controller *)

(** What a handler appended to the log between two pages. *)
Definition appended (p p' : Controller.page) : list Controller.effect :=
  drop (length (Controller.log p)) (Controller.log p').

(** Whatever the page, the computation only appends to the log, and only
    effects that satisfy [P]. *)
Definition emits (P : Controller.effect → Prop) {A} (m : Controller.U A)
    : Prop :=
  ∀ p, ∃ effects,
    Controller.log (m p).2 = Controller.log p ++ effects
    ∧ List.Forall P effects.

Definition isRequest (e : Controller.effect) : Prop :=
  match e with
  | Controller.Request _ _ _ => True
  | _ => False
  end.

(** Effects other than requests. *)
Definition quiet (e : Controller.effect) : Prop := ¬ isRequest e.

(** The toasts among the effects, in order. *)
Definition toasts (effects : list Controller.effect) : list ToastMessage :=
  omap (fun e => match e with
                 | Controller.Browser (NotificationShow t) => Some t
                 | _ => None
                 end) effects.

(** The only requests that the registration of a vehicle may send: the
    creation of a vehicle whose capacity is a number from 1 to 100, and
    the reload of the vehicles. *)
Definition registrationRequest (e : Controller.effect) : Prop :=
  match e with
  | Controller.Request method url body =>
      match body with
      | Some data =>
          method = "POST"
          ∧ url = "http://localhost:5000/api/vehicles"
          ∧ ∃ n, data !! "capacity" = Some (JNum n) ∧ 1 ≤ n ≤ 100
      | None => method = "GET" ∧ url = "http://localhost:5000/api/vehicles"
      end
  | _ => True
  end.

(** A vehicle that [populateVehicleSelects] can list: an object whose
    [id], [name] and [number_plate], where it has them, can be converted
    to strings; and the three strings. *)
Definition vehicleOption (vehicle : json) : option (string * string * string) :=
  match vehicle with
  | JObj o =>
      let text (key : string) : option string :=
        match o !! key with
        | Some v => Controller.ToString v
        | None => Some "undefined"
        end in
      id ← text "id";
      name ← text "name";
      number_plate ← text "number_plate";
      Some (id, name, number_plate)
  | JNull => None
  | _ => Some ("undefined", "undefined", "undefined")
  end.

Definition optionEffect (o : string * string * string) : Controller.effect :=
  Controller.AppendOption o.1.1 (o.1.2 +:+ " (" +:+ o.2 +:+ ")").

Definition isPost (e : Controller.effect) : Prop :=
  match e with
  | Controller.Request method _ _ => method = "POST"
  | _ => False
  end.

(** The shape of a submission of a form, from the page [p] to the page
    [p']: an invalid form only has its errors displayed; a valid form has
    its button set loading, its payload posted to the resource (the only
    request with the method POST) and, whatever happens then, its button
    set back at the end. *)
Definition submission (form endpoint : string) (payload : gmap string json)
    (validation : FormValidation) (p p' : Controller.page) : Prop :=
  if isValid validation
  then ∃ between,
         appended p p'
         = Controller.SetButtonLoading form true
           :: Controller.Request "POST"
                (Controller.API_BASE_URL +:+ endpoint) (Some payload)
           :: between ++ [Controller.SetButtonLoading form false]
         ∧ List.Forall (fun e => ¬ isPost e) between
  else appended p p' = [Controller.DisplayErrors (errors validation)]
       ∧ Controller.storage p' = Controller.storage p.

(** ** Sample forms *)

Module Sample.

(** A sample of the conversion of form values to JSON strings: exact on
    ASCII. *)
Definition encode (s : jsstring) : string :=
  string_of_list_ascii (ascii_of_N <$> s).

Definition parseFloat (s : jsstring) : json :=
  match parseInt s with Some n => JNum n | None => JNull end.

Definition parseFloat_isNaN_or_negative (s : jsstring) : bool :=
  match parseInt s with Some n => n <? 0 | None => true end.

Definition vehicle_form : gmap string jsstring :=
  {[ "vehicleName" := lit "Matatu C";
     "numberPlate" := lit "KCA 123A";
     "capacity" := lit "14";
     "route" := lit "Thika" ]}.

Definition ticket_form : gmap string jsstring :=
  {[ "ticketVehicleId" := lit "v1";
     "customerName" := lit "Wanjiru";
     "phoneNumber" := lit "0712345678";
     "ticketRoute" := lit "Thika";
     "ticketAmount" := lit "50";
     "seatNumber" := lit "4";
     "cashier" := lit "Otieno" ]}.

Definition empty_page : Controller.page := Controller.mkPage ∅ [].


End Sample.

(** * Properties of the data-access layer *)

Lemma emitted_app (w : world) (st : gmap string (list json)) (evs : list event) :
  emitted w (mkWorld st (trace w ++ evs)) = evs.
Proof. unfold emitted; simpl. by rewrite drop_app_length. Qed.

(** Running a computation step by step. *)
Ltac run :=
  unfold result, after, ApiClient.get, ApiClient.post, try_catch, await,
    ApiClient.handleError, NotificationManager.show, console_error,
    console_warn, ApiClient.getFromLocalStorage, ApiClient.saveToLocalStorage,
    ApiClient.syncWithLocalStorage, ApiClient.getLocalData,
    getItem, setItem, removeItem, emit, throw,
    mbind, M_bind, bind, mret, M_ret, ret;
  simpl.

Lemma connection_error_not_aborted (error : AxiosError) :
  ApiClient.isConnectionError error = false →
  match Axios.code error with
  | Some c => String.eqb c "ECONNABORTED"
  | None => false
  end = false.
Proof.
  unfold ApiClient.isConnectionError. intros H.
  apply orb_false_elim in H as [H _]. by apply orb_false_elim in H as [H _].
Qed.

(** What [handleError] does: one line on the console, one toast. *)
Lemma handleError_run (error : AxiosError) (w : world) :
  ApiClient.handleError error w =
    (Normal tt,
     mkWorld (localStorage w)
       (trace w ++ [ConsoleError "API Error:" error;
                    NotificationShow
                      (mkToast ToastType.error (ApiClient.errorMessage error))])).
Proof. run. by rewrite <- app_assoc. Qed.

(** C2, as the code has it: a read that fails with a connectivity failure
    while the Local Cache holds a payload for the resource returns exactly
    the cached value, does not raise and leaves the cache as it is.  That
    local data is used is reported by exactly one [console.warn]; the user
    is shown no notification. *)
Theorem get_connectivity_failure_cache_hit
    (error : AxiosError) (endpoint key : string) (cached : list json)
    (w : world) :
  ApiClient.isConnectionError error = true →
  ApiClient.getStorageKey endpoint = Some key →
  localStorage w !! key = Some cached →
  let w' := after (ApiClient.get (Rejected error) endpoint) w in
  result (ApiClient.get (Rejected error) endpoint) w = Normal (JArr cached)
  ∧ localStorage w' = localStorage w
  ∧ warnings (emitted w w') =
      [ConsoleWarn ("Using local storage data for " +:+ endpoint +:+
                    " due to connection error")]
  ∧ notifications (emitted w w') = [].
Proof.
  intros Hconn Hkey Hhit. run. rewrite Hconn, Hkey. simpl. rewrite Hhit. simpl.
  rewrite <- app_assoc. rewrite emitted_app. done.
Qed.

Lemma get_connectivity_failure_cache_hit_witness :
  result (ApiClient.get (Rejected Scenario.timed_out) "/vehicles")
    Scenario.cached_vehicles = Normal (JArr Scenario.two_vehicles)
  ∧ warnings (emitted Scenario.cached_vehicles
       (after (ApiClient.get (Rejected Scenario.timed_out) "/vehicles")
          Scenario.cached_vehicles)) =
      [ConsoleWarn "Using local storage data for /vehicles due to connection error"].
Proof.
  destruct (get_connectivity_failure_cache_hit Scenario.timed_out "/vehicles"
              STORAGE_KEYS.VEHICLES Scenario.two_vehicles
              Scenario.cached_vehicles eq_refl eq_refl eq_refl)
    as (Hres & _ & Hwarn & _).
  split; [exact Hres | exact Hwarn].
Defined.

(** C2 fails as stated: the read of [/vehicles] that times out with two
    vehicles in the cache returns the two vehicles, and of the
    notifications it shows, none at all, not one is a warning. *)
Lemma cache_hit_without_warning_notification :
  let w := Scenario.cached_vehicles in
  let w' := after (ApiClient.get (Rejected Scenario.timed_out) "/vehicles") w in
  result (ApiClient.get (Rejected Scenario.timed_out) "/vehicles") w
    = Normal (JArr Scenario.two_vehicles)
  ∧ length (List.filter isWarning (notifications (emitted w w'))) ≠ 1%nat.
Proof. split; [reflexivity | vm_compute; discriminate]. Qed.

(** C6: a read that fails with a server or application failure (a
    response with status 400 to 599 and no sign of a connectivity failure)
    re-raises the error, emits exactly one notification, of type error,
    whose message names the failure (server error for 500, not found for
    404, unexpected otherwise), and never touches the Local Cache. *)
Theorem get_server_failure
    (error : AxiosError) (r : AxiosResponse) (endpoint : string) (w : world) :
  Axios.response error = Some r →
  400 ≤ Axios.status r ≤ 599 →
  ApiClient.isConnectionError error = false →
  let w' := after (ApiClient.get (Rejected error) endpoint) w in
  result (ApiClient.get (Rejected error) endpoint) w = Throw error
  ∧ notifications (emitted w w') =
      [NotificationShow
         (mkToast ToastType.error
            (if Axios.status r =? 500 then "Server error. Please try again later."
             else if Axios.status r =? 404 then "Resource not found."
             else "An unexpected error occurred"))]
  ∧ cacheAccesses (emitted w w') = []
  ∧ localStorage w' = localStorage w.
Proof.
  intros Hresp Hstatus Hconn.
  pose proof (connection_error_not_aborted _ Hconn) as Hcode.
  run. rewrite Hconn. simpl. rewrite <- app_assoc, emitted_app. simpl.
  unfold ApiClient.errorMessage. rewrite Hresp, Hcode. done.
Qed.

Lemma get_server_failure_witness :
  result (ApiClient.get (Rejected Scenario.server_error) "/reports")
    Scenario.cached_vehicles = Throw Scenario.server_error
  ∧ notifications (emitted Scenario.cached_vehicles
       (after (ApiClient.get (Rejected Scenario.server_error) "/reports")
          Scenario.cached_vehicles)) =
      [NotificationShow
         (mkToast ToastType.error "Server error. Please try again later.")].
Proof.
  destruct (get_server_failure Scenario.server_error (mkResponse JNull 500)
              "/reports" Scenario.cached_vehicles eq_refl
              ltac:(simpl; lia) eq_refl)
    as (Hres & Hnote & _).
  split; [exact Hres | exact Hnote].
Defined.


(** C1, as the code has it: a failed read or write either re-raises the
    error, and then the data layer has shown exactly one notification (the
    error toast of [handleError]); or it falls back to the Local Cache and
    returns normally, and then it has shown no notification at all: the
    fallback is reported by one [console.warn] only. *)
Theorem failure_notifications
    (error : AxiosError) (now : Z) (endpoint : string)
    (data : gmap string json) (w : world) :
  let reported (res : completion json) (w' : world) :=
    match res with
    | Throw e =>
        e = error
        ∧ notifications (emitted w w') =
            [NotificationShow
               (mkToast ToastType.error (ApiClient.errorMessage error))]
    | Normal _ =>
        ApiClient.isConnectionError error = true
        ∧ notifications (emitted w w') = []
        ∧ ∃ msg, warnings (emitted w w') = [ConsoleWarn msg]
    end in
  reported (result (ApiClient.get (Rejected error) endpoint) w)
           (after (ApiClient.get (Rejected error) endpoint) w)
  ∧ reported (result (ApiClient.post (Rejected error) now endpoint data) w)
             (after (ApiClient.post (Rejected error) now endpoint data) w).
Proof.
  simpl. split.
  - run. destruct (ApiClient.isConnectionError error) eqn:Hconn; simpl.
    + destruct (ApiClient.getStorageKey endpoint) as [key|]; simpl.
      * destruct (localStorage w !! key) as [cached|]; simpl;
          rewrite <- ?app_assoc, emitted_app; simpl; eauto.
      * rewrite <- ?app_assoc, emitted_app; simpl; eauto.
    + rewrite <- ?app_assoc, emitted_app; simpl; eauto.
  - run. destruct (ApiClient.isConnectionError error) eqn:Hconn; simpl.
    + destruct (ApiClient.getStorageKey endpoint) as [key|]; simpl;
        rewrite <- ?app_assoc, emitted_app; simpl; eauto.
    + rewrite <- ?app_assoc, emitted_app; simpl; eauto.
Qed.

(** C1 fails as stated: the read of [/vehicles] that times out with two
    vehicles in the cache, and the write of [/vehicles] that times out,
    both return normally without a single notification. *)
Lemma failure_without_notification :
  length (notifications
    (emitted Scenario.cached_vehicles
       (after (ApiClient.get (Rejected Scenario.timed_out) "/vehicles")
          Scenario.cached_vehicles))) ≠ 1%nat
  ∧ length (notifications
    (emitted Scenario.fresh
       (after (ApiClient.post (Rejected Scenario.timed_out) 1700000000000
                 "/vehicles" Scenario.new_vehicle)
          Scenario.fresh))) ≠ 1%nat.
Proof. split; vm_compute; discriminate. Qed.


(** ** The Local Cache *)

Lemma getStorageKey_cases (endpoint key : string) :
  ApiClient.getStorageKey endpoint = Some key →
  (endpoint = "/vehicles" ∧ key = STORAGE_KEYS.VEHICLES)
  ∨ (endpoint = "/tickets" ∧ key = STORAGE_KEYS.TICKETS)
  ∨ (endpoint = "/parcels" ∧ key = STORAGE_KEYS.PARCELS)
  ∨ (endpoint = "/receipts" ∧ key = STORAGE_KEYS.RECEIPTS)
  ∨ (endpoint = "/reports" ∧ key = STORAGE_KEYS.REPORTS).
Proof.
  unfold ApiClient.getStorageKey.
  repeat match goal with
         | |- context [String.eqb endpoint ?s] =>
             destruct (String.eqb_spec endpoint s);
             [intros [= <-]; tauto |]
         end.
  discriminate.
Qed.

(** C5: on a resource path with a collection key, [save] followed by
    [load] returns the sequence that was there before (none, if the
    collection was absent) with the saved record appended as its last
    element, whether or not an equal record was already there; on a path
    without a collection key, [save] changes nothing and [load] returns
    [null]. *)
Theorem save_then_load (endpoint : string) (record : json) (w : world) :
  let previous :=
    match load endpoint w with
    | Normal (JArr l) => l
    | _ => []
    end in
  match ApiClient.getStorageKey endpoint with
  | Some key =>
      load endpoint (save endpoint record w)
        = Normal (JArr (previous ++ [record]))
      ∧ last (previous ++ [record]) = Some record
      ∧ localStorage (save endpoint record w)
          = <[key := previous ++ [record]]> (localStorage w)
  | None =>
      save endpoint record w = w
      ∧ load endpoint w = Normal JNull
      ∧ load endpoint (save endpoint record w) = Normal JNull
  end.
Proof.
  unfold load, save. run.
  destruct (ApiClient.getStorageKey endpoint) as [key|]; simpl.
  - rewrite lookup_insert_eq. rewrite last_snoc.
    destruct (localStorage w !! key) as [l|]; done.
  - done.
Qed.

(** C3, as the code has it: a write that succeeds over the network on a
    path with a collection key removes that collection from the Local
    Cache, pending offline entries included, and touches nothing else; the
    result of the server is returned unchanged and is not stored, so a
    [load] right after the write returns [null]. *)
Theorem post_success_clears_collection
    (response : AxiosResponse) (now : Z) (endpoint key : string)
    (data : gmap string json) (w : world) :
  ApiClient.getStorageKey endpoint = Some key →
  let w' := after (ApiClient.post (Resolved response) now endpoint data) w in
  result (ApiClient.post (Resolved response) now endpoint data) w
    = Normal (Axios.data response)
  ∧ localStorage w' = delete key (localStorage w)
  ∧ load endpoint w' = Normal JNull
  ∧ emitted w w' = [RemoveItem key].
Proof.
  intros Hkey. unfold load. run. rewrite Hkey. simpl.
  rewrite lookup_delete_eq, emitted_app. done.
Qed.

Lemma post_success_clears_collection_witness :
  result (ApiClient.post (Resolved Scenario.created) 1700000000000
            "/vehicles" Scenario.new_vehicle) Scenario.cached_vehicles
    = Normal (Axios.data Scenario.created)
  ∧ load "/vehicles"
      (after (ApiClient.post (Resolved Scenario.created) 1700000000000
                "/vehicles" Scenario.new_vehicle) Scenario.cached_vehicles)
    = Normal JNull.
Proof.
  destruct (post_success_clears_collection Scenario.created 1700000000000
              "/vehicles" STORAGE_KEYS.VEHICLES Scenario.new_vehicle
              Scenario.cached_vehicles eq_refl)
    as (Hres & _ & Hload & _).
  split; [exact Hres | exact Hload].
Defined.

(** C3 fails as stated: after the successful write of [/vehicles] the
    vehicles collection does not hold the result of the server; it holds
    nothing. *)
Lemma post_success_result_not_mirrored :
  ¬ ∃ l : list json,
      localStorage
        (after (ApiClient.post (Resolved Scenario.created) 1700000000000
                  "/vehicles" Scenario.new_vehicle) Scenario.cached_vehicles)
        !! STORAGE_KEYS.VEHICLES = Some l
      ∧ In (Axios.data Scenario.created) l.
Proof. intros (l & Hl & _). vm_compute in Hl. discriminate. Qed.


(** ** Offline writes *)

(** What the offline branch of [post] does, step by step. *)
Lemma post_offline_run
    (error : AxiosError) (now : Z) (endpoint : string)
    (data : gmap string json) (w : world) :
  ApiClient.isConnectionError error = true →
  ApiClient.post (Rejected error) now endpoint data w =
    (Normal (JObj {[ ApiClient.mockKey endpoint := JStr (Number_toString now) ]}),
     after (console_warn ("Stored " +:+ endpoint +:+
                          " locally due to connection error: " +:+
                          Number_toString now))
       (save endpoint (JObj (<["id" := JStr (Number_toString now)]> data)) w)).
Proof.
  intros Hconn. unfold save. run. rewrite Hconn. simpl.
  destruct (ApiClient.getStorageKey endpoint); done.
Qed.

Lemma mockKey_cases (endpoint : string) :
  (includes endpoint "vehicles" = true
   → ApiClient.mockKey endpoint = "vehicle_id")
  ∧ (includes endpoint "vehicles" = false
     → includes endpoint "tickets" = true
     → ApiClient.mockKey endpoint = "ticket_id")
  ∧ (includes endpoint "vehicles" = false
     → includes endpoint "tickets" = false
     → includes endpoint "parcels" = true
     → ApiClient.mockKey endpoint = "parcel_id")
  ∧ (includes endpoint "vehicles" = false
     → includes endpoint "tickets" = false
     → includes endpoint "parcels" = false
     → ApiClient.mockKey endpoint = "").
Proof.
  unfold ApiClient.mockKey.
  repeat split; intros; repeat match goal with H : _ = _ |- _ => rewrite H end;
    reflexivity.
Qed.

(** C4, as the code has it: a write that fails with a connectivity
    failure returns an object with exactly one field, which holds the
    synthesized identifier.  The field is [vehicle_id] if the path
    contains "vehicles", else [ticket_id] if it contains "tickets", else
    [parcel_id] if it contains "parcels"; for any other path the field is
    still there and its name is the empty string. *)
Theorem post_offline_result
    (error : AxiosError) (now : Z) (endpoint : string)
    (data : gmap string json) (w : world) :
  ApiClient.isConnectionError error = true →
  result (ApiClient.post (Rejected error) now endpoint data) w
    = Normal (JObj {[ ApiClient.mockKey endpoint := JStr (Number_toString now) ]})
  ∧ ApiClient.mockKey endpoint =
      (if includes endpoint "vehicles" then "vehicle_id"
       else if includes endpoint "tickets" then "ticket_id"
       else if includes endpoint "parcels" then "parcel_id"
       else "")
  ∧ size ({[ ApiClient.mockKey endpoint := JStr (Number_toString now) ]}
            : gmap string json) = 1%nat.
Proof.
  intros Hconn. unfold result. rewrite post_offline_run by done.
  repeat split. apply map_size_singleton.
Qed.

Lemma post_offline_result_witness :
  result (ApiClient.post (Rejected Scenario.timed_out) 1700000000000
            "/tickets" Scenario.new_vehicle) Scenario.fresh
    = Normal (JObj {[ "ticket_id" := JStr "1700000000000" ]}).
Proof.
  exact (proj1 (post_offline_result Scenario.timed_out 1700000000000
                  "/tickets" Scenario.new_vehicle Scenario.fresh eq_refl)).
Defined.

(** C4 fails as stated: [/receipts] is none of the three resources, and
    the object the offline write returns is not empty; it has a field,
    named by the empty string, that holds the identifier. *)
Lemma post_offline_unrecognized_has_field :
  ∃ o : gmap string json,
    result (ApiClient.post (Rejected Scenario.timed_out) 1700000000000
              "/receipts" Scenario.new_vehicle) Scenario.fresh
      = Normal (JObj o)
    ∧ o !! "" = Some (JStr "1700000000000")
    ∧ o ≠ ∅.
Proof.
  exists {[ "" := JStr "1700000000000" ]}. split; [| split].
  - unfold result. by rewrite post_offline_run.
  - apply lookup_singleton_eq.
  - apply (insert_non_empty (M := gmap string)).
Qed.

(** [Number_toString] can be read back, hence it is injective. *)
Lemma Number_ofString_toString (n : Z) :
  Number_ofString (Number_toString n) = Some n.
Proof.
  unfold Number_ofString, Number_toString.
  rewrite NilZero.isi.
  - simpl. by rewrite DecimalZ.of_to.
  - destruct n; simpl; try discriminate.
    intros [= H]. by apply (DecimalPos.Unsigned.to_uint_nonnil p).
  - destruct n; simpl; try discriminate.
    intros [= H]. by apply (DecimalPos.Unsigned.to_uint_nonnil p).
Qed.

Lemma Number_toString_inj (n m : Z) :
  Number_toString n = Number_toString m → n = m.
Proof.
  intros H. apply (f_equal Number_ofString) in H.
  rewrite !Number_ofString_toString in H. by injection H.
Qed.

(** C7, as the code has it: the identifier of an offline write is the
    decimal numeral of the clock reading (in milliseconds) at the time of
    the write.  Of two offline writes in a row, the identifiers are
    distinct exactly when the two clock readings are, and read as numbers
    they are ordered as the clock readings are. *)
Theorem offline_identifiers
    (error1 error2 : AxiosError) (now1 now2 : Z) (endpoint1 endpoint2 : string)
    (data1 data2 : gmap string json) (w : world) :
  ApiClient.isConnectionError error1 = true →
  ApiClient.isConnectionError error2 = true →
  let w1 := after (ApiClient.post (Rejected error1) now1 endpoint1 data1) w in
  ∃ id1 id2 : string,
    result (ApiClient.post (Rejected error1) now1 endpoint1 data1) w
      = Normal (JObj {[ ApiClient.mockKey endpoint1 := JStr id1 ]})
    ∧ result (ApiClient.post (Rejected error2) now2 endpoint2 data2) w1
      = Normal (JObj {[ ApiClient.mockKey endpoint2 := JStr id2 ]})
    ∧ Number_ofString id1 = Some now1
    ∧ Number_ofString id2 = Some now2
    ∧ (id1 = id2 ↔ now1 = now2).
Proof.
  intros Hconn1 Hconn2 w1.
  exists (Number_toString now1), (Number_toString now2).
  unfold result. rewrite !post_offline_run by done.
  rewrite !Number_ofString_toString. repeat split.
  - apply Number_toString_inj.
  - by intros ->.
Qed.

Lemma offline_identifiers_witness :
  ∃ id1 id2 : string,
    result (ApiClient.post (Rejected Scenario.timed_out) 1700000000000
              "/tickets" Scenario.new_vehicle) Scenario.fresh
      = Normal (JObj {[ "ticket_id" := JStr id1 ]})
    ∧ result (ApiClient.post (Rejected Scenario.timed_out) 1700000000001
                "/tickets" Scenario.new_vehicle)
        (after (ApiClient.post (Rejected Scenario.timed_out) 1700000000000
                  "/tickets" Scenario.new_vehicle) Scenario.fresh)
      = Normal (JObj {[ "ticket_id" := JStr id2 ]})
    ∧ Number_ofString id1 = Some 1700000000000
    ∧ Number_ofString id2 = Some 1700000000001
    ∧ (id1 = id2 ↔ 1700000000000 = 1700000000001).
Proof.
  exact (offline_identifiers Scenario.timed_out Scenario.timed_out
           1700000000000 1700000000001 "/tickets" "/tickets"
           Scenario.new_vehicle Scenario.new_vehicle Scenario.fresh
           eq_refl eq_refl).
Defined.

(** C7 fails as stated: two offline writes of one session that read the
    same millisecond off the clock get the same identifier. *)
Lemma offline_identifiers_collide :
  let first := ApiClient.post (Rejected Scenario.timed_out) 1700000000000
                 "/tickets" Scenario.new_vehicle in
  let second := ApiClient.post (Rejected Scenario.timed_out) 1700000000000
                  "/tickets" (<["seat_number" := JNum 4]> Scenario.new_vehicle) in
  result first Scenario.fresh
    = Normal (JObj {[ "ticket_id" := JStr "1700000000000" ]})
  ∧ result second (after first Scenario.fresh)
    = Normal (JObj {[ "ticket_id" := JStr "1700000000000" ]}).
Proof.
  simpl. unfold result. by rewrite !post_offline_run.
Qed.

(** C10: when a write fails with a connectivity failure on a path that
    contains "vehicles", "tickets" or "parcels" without being exactly
    [/vehicles], [/tickets] or [/parcels], the object returned carries the
    identifier under the field of the substring found ([vehicle_id] if the
    path contains "vehicles", else [ticket_id] if it contains "tickets",
    else [parcel_id]), while the path has no collection key: the Local
    Cache is neither read nor written. *)
Theorem post_offline_substring_path
    (error : AxiosError) (now : Z) (endpoint : string)
    (data : gmap string json) (w : world) :
  ApiClient.isConnectionError error = true →
  includes endpoint "vehicles" = true
  ∨ includes endpoint "tickets" = true
  ∨ includes endpoint "parcels" = true →
  endpoint ≠ "/vehicles" → endpoint ≠ "/tickets" → endpoint ≠ "/parcels" →
  let w' := after (ApiClient.post (Rejected error) now endpoint data) w in
  let field :=
    if includes endpoint "vehicles" then "vehicle_id"
    else if includes endpoint "tickets" then "ticket_id"
    else "parcel_id" in
  result (ApiClient.post (Rejected error) now endpoint data) w
    = Normal (JObj {[ field := JStr (Number_toString now) ]})
  ∧ ApiClient.getStorageKey endpoint = None
  ∧ localStorage w' = localStorage w
  ∧ cacheAccesses (emitted w w') = [].
Proof.
  intros Hconn Hsub Hv Ht Hp.
  assert (ApiClient.getStorageKey endpoint = None) as Hkey.
  { destruct (ApiClient.getStorageKey endpoint) as [key|] eqn:Hkey; [| done].
    exfalso.
    destruct (getStorageKey_cases _ _ Hkey)
      as [[-> _]|[[-> _]|[[-> _]|[[-> _]|[-> _]]]]]; try done;
      vm_compute in Hsub; intuition discriminate. }
  unfold result, after. rewrite post_offline_run by done.
  unfold save, after. unfold ApiClient.saveToLocalStorage. rewrite Hkey.
  run. rewrite emitted_app. split; [| done].
  unfold ApiClient.mockKey.
  destruct (includes endpoint "vehicles"); [done |].
  destruct (includes endpoint "tickets"); [done |].
  destruct (includes endpoint "parcels"); [done |].
  intuition discriminate.
Qed.

Lemma post_offline_substring_path_witness :
  result (ApiClient.post (Rejected Scenario.timed_out) 1700000000000
            "/tickets/7" Scenario.new_vehicle) Scenario.cached_vehicles
    = Normal (JObj {[ "ticket_id" := JStr "1700000000000" ]})
  ∧ localStorage
      (after (ApiClient.post (Rejected Scenario.timed_out) 1700000000000
                "/tickets/7" Scenario.new_vehicle)
         Scenario.cached_vehicles)
    = localStorage Scenario.cached_vehicles.
Proof.
  destruct (post_offline_substring_path Scenario.timed_out 1700000000000
              "/tickets/7" Scenario.new_vehicle Scenario.cached_vehicles
              eq_refl (or_intror (or_introl eq_refl))
              ltac:(discriminate) ltac:(discriminate) ltac:(discriminate))
    as (Hres & _ & Hstore & _).
  split; [exact Hres | exact Hstore].
Defined.


(** * Properties of the validation rules *)

(** ** Matching by derivatives decides the language of a pattern *)

Lemma lang_Void_inv (s : jsstring) : RegExp.lang RegExp.Void s ↔ False.
Proof. split; [inversion 1 | done]. Qed.

Lemma lang_Eps_inv (s : jsstring) : RegExp.lang RegExp.Eps s ↔ s = [].
Proof. split; [by inversion 1 | intros ->; constructor]. Qed.

Lemma lang_Class_inv (p : N → bool) (s : jsstring) :
  RegExp.lang (RegExp.Class p) s ↔ ∃ c, s = [c] ∧ p c = true.
Proof.
  split.
  - inversion 1; subst; eauto.
  - intros (c & -> & Hc). by constructor.
Qed.

Lemma lang_Cat_inv (r1 r2 : RegExp.regex) (s : jsstring) :
  RegExp.lang (RegExp.Cat r1 r2) s
  ↔ ∃ s1 s2, s = s1 ++ s2 ∧ RegExp.lang r1 s1 ∧ RegExp.lang r2 s2.
Proof.
  split.
  - inversion 1; subst; eauto.
  - intros (s1 & s2 & -> & H1 & H2). by constructor.
Qed.

Lemma lang_Alt_inv (r1 r2 : RegExp.regex) (s : jsstring) :
  RegExp.lang (RegExp.Alt r1 r2) s ↔ RegExp.lang r1 s ∨ RegExp.lang r2 s.
Proof.
  split.
  - inversion 1; subst; eauto.
  - intros [H|H]; [by apply RegExp.lang_Alt_l | by apply RegExp.lang_Alt_r].
Qed.

Lemma nullable_lang (r : RegExp.regex) :
  RegExp.nullable r = true ↔ RegExp.lang r [].
Proof.
  induction r as [| |p|r1 IH1 r2 IH2|r1 IH1 r2 IH2]; simpl.
  - rewrite lang_Void_inv. done.
  - rewrite lang_Eps_inv. done.
  - rewrite lang_Class_inv. split; [done | by intros (c & [=] & _)].
  - rewrite andb_true_iff, IH1, IH2, lang_Cat_inv. split.
    + intros [H1 H2]. by exists [], [].
    + intros (s1 & s2 & Hs & H1 & H2). symmetry in Hs.
      apply app_eq_nil in Hs as [-> ->]. done.
  - rewrite orb_true_iff, IH1, IH2, lang_Alt_inv. done.
Qed.

Lemma deriv_lang (c : N) (r : RegExp.regex) (s : jsstring) :
  RegExp.lang (RegExp.deriv c r) s ↔ RegExp.lang r (c :: s).
Proof.
  revert s.
  induction r as [| |p|r1 IH1 r2 IH2|r1 IH1 r2 IH2]; intros s; simpl.
  - rewrite !lang_Void_inv. done.
  - rewrite lang_Void_inv, lang_Eps_inv. done.
  - rewrite lang_Class_inv. destruct (p c) eqn:Hp.
    + rewrite lang_Eps_inv. split.
      * intros ->. eauto.
      * by intros (c' & [= <- ->] & _).
    + rewrite lang_Void_inv. split; [done |].
      intros (c' & [= <- ->] & Hc). congruence.
  - assert (RegExp.lang (RegExp.Cat (RegExp.deriv c r1) r2) s
            ∨ (RegExp.lang r1 [] ∧ RegExp.lang r2 (c :: s))
            ↔ RegExp.lang (RegExp.Cat r1 r2) (c :: s)) as Hcat.
    { rewrite !lang_Cat_inv. split.
      - intros [(s1 & s2 & -> & H1 & H2)|[H1 H2]].
        + exists (c :: s1), s2. by rewrite <- IH1.
        + by exists [], (c :: s).
      - intros (s1 & s2 & Hs & H1 & H2). destruct s1 as [|c' s1].
        + simpl in Hs. subst s2. by right.
        + injection Hs as <- ->. left. exists s1, s2. by rewrite IH1. }
    destruct (RegExp.nullable r1) eqn:Hn.
    + rewrite lang_Alt_inv, IH2, <- Hcat.
      apply nullable_lang in Hn. tauto.
    + rewrite <- Hcat. split; [tauto |]. intros [H|[H _]]; [done |].
      apply nullable_lang in H. congruence.
  - rewrite !lang_Alt_inv, IH1, IH2. done.
Qed.

(** [test] is true exactly on the strings of the pattern. *)
Lemma test_lang (r : RegExp.regex) (s : jsstring) :
  RegExp.test r s = true ↔ RegExp.lang r s.
Proof.
  unfold RegExp.test. revert r.
  induction s as [|c s IH]; intros r; simpl.
  - apply nullable_lang.
  - rewrite IH. apply deriv_lang.
Qed.

Lemma lang_str (x : string) (s : jsstring) :
  RegExp.lang (RegExp.str x) s ↔ s = lit x.
Proof.
  unfold RegExp.str. revert s.
  induction (lit x) as [|c l IH]; intros s; simpl.
  - apply lang_Eps_inv.
  - rewrite lang_Cat_inv. split.
    + intros (s1 & s2 & -> & H1 & H2).
      apply lang_Class_inv in H1 as (c' & -> & Hc).
      apply N.eqb_eq in Hc as <-. apply IH in H2 as ->. done.
    + intros ->. exists [c], l. split; [done |]. split.
      * apply lang_Class_inv. exists c. by rewrite N.eqb_refl.
      * by apply IH.
Qed.

Lemma lang_times_Class (n : nat) (p : N → bool) (s : jsstring) :
  RegExp.lang (RegExp.times n (RegExp.Class p)) s
  ↔ length s = n ∧ List.Forall (fun c => p c = true) s.
Proof.
  revert s. induction n as [|n IH]; intros s; simpl.
  - rewrite lang_Eps_inv. split.
    + intros ->. done.
    + intros [Hlen _]. by destruct s.
  - rewrite lang_Cat_inv. split.
    + intros (s1 & s2 & -> & H1 & H2).
      apply lang_Class_inv in H1 as (c & -> & Hc).
      apply IH in H2 as [<- H2]. split; [done |]. by constructor.
    + intros [Hlen Hall]. destruct s as [|c s]; [done |].
      injection Hlen as Hlen. inversion Hall; subst.
      exists [c], s. split; [done |]. split.
      * apply lang_Class_inv. eauto.
      * by apply IH.
Qed.


(** ** Phone numbers *)

(** The pattern of the source denotes the phone numbers of the
    specification. *)
Lemma PHONE_PATTERN_test (s : jsstring) :
  RegExp.test PHONE_PATTERN s = true ↔ isKenyanMobile s.
Proof.
  rewrite test_lang. unfold PHONE_PATTERN, isKenyanMobile. split.
  - intros (s1 & s2 & -> & H1 & H2)%lang_Cat_inv.
    apply lang_Cat_inv in H2 as (s3 & ds & -> & H3 & H4).
    apply lang_Class_inv in H3 as (d & -> & Hd).
    apply lang_times_Class in H4 as [Hlen Hall].
    exists d, ds. cbn in Hd. rewrite orb_false_r, orb_true_iff, !N.eqb_eq in Hd.
    apply lang_Alt_inv in H1 as [->%lang_str | ->%lang_str]; intuition.
  - intros (d & ds & Hs & Hd & Hlen & Hall).
    apply lang_Cat_inv.
    assert (RegExp.lang
              (RegExp.Cat (RegExp.oneOf "17")
                 (RegExp.times 8 (RegExp.Class isDigit))) (d :: ds)) as Htail.
    { apply lang_Cat_inv. exists [d], ds. split; [done |]. split.
      - apply lang_Class_inv. exists d. split; [done |]. cbn.
        destruct Hd as [-> | ->]; done.
      - by apply lang_times_Class. }
    destruct Hs as [-> | ->].
    + exists (lit "+254"), (d :: ds). split; [done |]. split; [| done].
      apply lang_Alt_inv. left. by apply lang_str.
    + exists (lit "0"), (d :: ds). split; [done |]. split; [| done].
      apply lang_Alt_inv. right. by apply lang_str.
Qed.

Lemma isDigit_not_isWhiteSpace (c : N) :
  isDigit c = true → isWhiteSpace c = false.
Proof.
  unfold isDigit, isWhiteSpace.
  rewrite andb_true_iff, !N.leb_le. intros [H1 H2].
  repeat (rewrite orb_false_iff; split);
    try (apply N.eqb_neq; lia).
  apply andb_false_iff. left. apply N.leb_gt. lia.
Qed.

Lemma trimStart_id (c : N) (s : jsstring) :
  isWhiteSpace c = false → trimStart (c :: s) = c :: s.
Proof. intros H. simpl. by rewrite H. Qed.

Lemma trimEnd_snoc (c : N) (s : jsstring) :
  isWhiteSpace c = false → trimEnd (s ++ [c]) = s ++ [c].
Proof.
  intros H. unfold trimEnd. rewrite rev_unit. rewrite trimStart_id by done.
  change (c :: rev s) with (rev [c] ++ rev s).
  by rewrite <- rev_app_distr, rev_involutive.
Qed.

(** A phone number has no white space to trim. *)
Lemma isKenyanMobile_trim (s : jsstring) : isKenyanMobile s → trim s = s.
Proof.
  intros (d & ds & Hs & _ & Hlen & Hall). unfold trim.
  assert (trimStart s = s) as ->.
  { destruct Hs as [-> | ->]; by apply trimStart_id. }
  destruct ds as [|c ds' _] using rev_ind; [done |].
  apply Forall_app in Hall as [_ Hc]. inversion Hc as [|? ? Hdigit _]; subst.
  apply isDigit_not_isWhiteSpace in Hdigit.
  assert (∃ l, s = l ++ [c]) as (l & ->).
  { destruct Hs as [-> | ->].
    - exists (lit "+254" ++ d :: ds'). by rewrite <- app_assoc.
    - exists (lit "0" ++ d :: ds'). by rewrite <- app_assoc. }
  by apply trimEnd_snoc.
Qed.

Lemma isKenyanMobile_nonempty (s : jsstring) : isKenyanMobile s → s ≠ [].
Proof. intros (d & ds & [-> | ->] & _). all: done. Qed.

(** The entry of a phone field, as the three validators compute it. *)
Lemma phoneFieldRule_holds (input : option jsstring) (required format : string) :
  required ≠ format →
  phoneFieldRule input
    (if FormValidator.blank input then Some required
     else if negb (RegExp.test PHONE_PATTERN (trim (FormValidator.the input)))
     then Some format
     else None)
    required format.
Proof.
  intros Hne. unfold phoneFieldRule, FormValidator.blank, FormValidator.the.
  destruct input as [s|]; simpl.
  - assert (RegExp.test PHONE_PATTERN s = true
            → RegExp.test PHONE_PATTERN (trim s) = true) as Hraw.
    { intros Hs. apply PHONE_PATTERN_test in Hs.
      by rewrite (isKenyanMobile_trim _ Hs), PHONE_PATTERN_test. }
    case_bool_decide as Hblank.
    + (* blank: the required message *)
      assert (RegExp.test PHONE_PATTERN (trim s) = false) as Htest.
      { by rewrite Hblank. }
      split; [| split; [| split; [| split; [| done]]]].
      * intros s' [= <-] Hs. apply Hraw in Hs. congruence.
      * split; [done |]. intros (s' & [= <-] & Hs). congruence.
      * split; [| done]. intros _. right. by exists s.
      * split; [by intros [= ->] |]. by intros (s' & [= <-] & Hs & _).
    + destruct (RegExp.test PHONE_PATTERN (trim s)) eqn:Htest; simpl.
      * (* a phone number: no entry *)
        split; [| split; [| split; [| split; [| done]]]].
        -- done.
        -- split; [| done]. intros _. by exists s.
        -- split; [done |]. by intros [[=] | (s' & [= <-] & Hs)].
        -- split; [done |]. intros (s' & [= <-] & _ & Hs). congruence.
      * (* anything else: the format message *)
        split; [| split; [| split; [| split; [| done]]]].
        -- intros s' [= <-] Hs. apply Hraw in Hs. congruence.
        -- split; [done |]. intros (s' & [= <-] & Hs). congruence.
        -- split; [by intros [= ->] |].
           by intros [[=] | (s' & [= <-] & Hs)].
        -- split; [| done]. intros _. by exists s.
  - (* no such field: the required message *)
    split; [| split; [| split; [| split; [| done]]]].
    + by intros s [=].
    + split; [done |]. by intros (s & [=] & _).
    + split; [| done]. intros _. by left.
    + split; [by intros [= ->] |]. by intros (s & [=] & _).
Qed.

(** ** The errors of a validator, field by field

    A validator adds the entries of its fields one after the other.  The
    three shapes of a check, and what they do to the entry of a field. *)

Section Checks.

Context (m : gmap string string) (k k' : string).

Lemma lookup_check_ne (b : bool) (v : string) :
  k' ≠ k → (if b then <[k' := v]> m else m) !! k = m !! k.
Proof. intros. destruct b; by rewrite ?lookup_insert_ne. Qed.

Lemma lookup_check2_ne (b1 b2 : bool) (v1 v2 : string) :
  k' ≠ k →
  (if b1 then <[k' := v1]> m else if b2 then <[k' := v2]> m else m) !! k
  = m !! k.
Proof. intros. destruct b1, b2; by rewrite ?lookup_insert_ne. Qed.

Lemma lookup_check_num_ne (b : bool) (o : option Z) (f : Z → bool)
    (v1 v2 : string) :
  k' ≠ k →
  (if b then <[k' := v1]> m
   else match o with
        | Some n => if f n then <[k' := v2]> m else m
        | None => <[k' := v2]> m
        end) !! k
  = m !! k.
Proof.
  intros. destruct b, o as [n|]; try destruct (f n);
    by rewrite ?lookup_insert_ne.
Qed.

Lemma lookup_check2_eq (b1 b2 : bool) (v1 v2 : string) :
  m !! k = None →
  (if b1 then <[k := v1]> m else if b2 then <[k := v2]> m else m) !! k
  = if b1 then Some v1 else if b2 then Some v2 else None.
Proof. intros. destruct b1, b2; by rewrite ?lookup_insert_eq. Qed.

Lemma lookup_check_num_eq (b : bool) (o : option Z) (f : Z → bool)
    (v1 v2 : string) :
  m !! k = None →
  (if b then <[k := v1]> m
   else match o with
        | Some n => if f n then <[k := v2]> m else m
        | None => <[k := v2]> m
        end) !! k
  = if b then Some v1
    else match o with
         | Some n => if f n then Some v2 else None
         | None => Some v2
         end.
Proof.
  intros. destruct b, o as [n|]; try destruct (f n);
    by rewrite ?lookup_insert_eq.
Qed.

End Checks.

(** Skip the checks of the other fields. *)
Ltac skip_checks :=
  repeat first
    [ rewrite lookup_check_ne by done
    | rewrite lookup_check2_ne by done
    | rewrite lookup_check_num_ne by done ].

Ltac lookup_errors :=
  unfold FormValidator.validateVehicleForm, FormValidator.validateTicketForm,
    FormValidator.validateParcelForm, FormValidator.finish;
  cbv zeta; cbn [errors];
  skip_checks;
  first [ rewrite lookup_check2_eq | rewrite lookup_check_num_eq ];
  [ reflexivity | skip_checks; apply lookup_empty ].

Lemma validateTicketForm_phoneNumber
    (pf : jsstring → bool) (formData : gmap string jsstring) :
  errors (FormValidator.validateTicketForm pf formData) !! "phoneNumber" =
    if FormValidator.blank (formData !! "phoneNumber")
    then Some "Phone number is required"
    else if negb (RegExp.test PHONE_PATTERN
                    (trim (FormValidator.the (formData !! "phoneNumber"))))
    then Some "Invalid phone number format"
    else None.
Proof. lookup_errors. Qed.

Lemma validateParcelForm_senderPhone
    (pf : jsstring → bool) (formData : gmap string jsstring) :
  errors (FormValidator.validateParcelForm pf formData) !! "senderPhone" =
    if FormValidator.blank (formData !! "senderPhone")
    then Some "Sender phone is required"
    else if negb (RegExp.test PHONE_PATTERN
                    (trim (FormValidator.the (formData !! "senderPhone"))))
    then Some "Invalid sender phone format"
    else None.
Proof. lookup_errors. Qed.

Lemma validateParcelForm_receiverPhone
    (pf : jsstring → bool) (formData : gmap string jsstring) :
  errors (FormValidator.validateParcelForm pf formData) !! "receiverPhone" =
    if FormValidator.blank (formData !! "receiverPhone")
    then Some "Receiver phone is required"
    else if negb (RegExp.test PHONE_PATTERN
                    (trim (FormValidator.the (formData !! "receiverPhone"))))
    then Some "Invalid receiver phone format"
    else None.
Proof. lookup_errors. Qed.

Lemma validateVehicleForm_capacity (formData : gmap string jsstring) :
  errors (FormValidator.validateVehicleForm formData) !! "capacity" =
    if FormValidator.blank (formData !! "capacity")
    then Some "Capacity is required"
    else match parseInt (FormValidator.the (formData !! "capacity")) with
         | Some n =>
             if (n <? 1) || (n >? 100)
             then Some "Capacity must be between 1 and 100"
             else None
         | None => Some "Capacity must be between 1 and 100"
         end.
Proof. lookup_errors. Qed.


(** C8, as the code has it: the validators look at the phone field with
    the white space at both ends trimmed off.  A field that is missing or
    blank (empty once trimmed) gets the required message; a field whose
    trimmed value matches the pattern gets no entry; any other field gets
    the format message.  The two messages differ, and a field has at most
    one entry, so they exclude each other; and an input that matches the
    pattern as it stands is accepted.  This holds for the phone field of
    the ticket form and the sender and receiver phone fields of the parcel
    form, whatever [parseFloat] does to the amounts.  The pattern matches
    exactly the phone numbers of the specification. *)
Theorem phone_validation
    (pf : jsstring → bool) (formData : gmap string jsstring) :
  phoneFieldRule (formData !! "phoneNumber")
    (errors (FormValidator.validateTicketForm pf formData) !! "phoneNumber")
    "Phone number is required" "Invalid phone number format"
  ∧ phoneFieldRule (formData !! "senderPhone")
      (errors (FormValidator.validateParcelForm pf formData) !! "senderPhone")
      "Sender phone is required" "Invalid sender phone format"
  ∧ phoneFieldRule (formData !! "receiverPhone")
      (errors (FormValidator.validateParcelForm pf formData) !! "receiverPhone")
      "Receiver phone is required" "Invalid receiver phone format"
  ∧ ∀ s, RegExp.test PHONE_PATTERN s = true ↔ isKenyanMobile s.
Proof.
  rewrite validateTicketForm_phoneNumber, validateParcelForm_senderPhone,
    validateParcelForm_receiverPhone.
  split; [| split; [| split]]; try by apply phoneFieldRule_holds.
  apply PHONE_PATTERN_test.
Qed.

(** C8 fails as stated: a phone number after a space does not match the
    pattern and is not empty, yet it gets no format error; and a field of
    two spaces is not empty, yet it gets the required message and not the
    format message. *)
Lemma phone_validation_trims :
  RegExp.test PHONE_PATTERN (lit " 0712345678") = false
  ∧ errors (FormValidator.validateTicketForm (fun _ => false)
              {[ "phoneNumber" := lit " 0712345678" ]}) !! "phoneNumber"
    = None
  ∧ RegExp.test PHONE_PATTERN (lit "  ") = false
  ∧ errors (FormValidator.validateTicketForm (fun _ => false)
              {[ "phoneNumber" := lit "  " ]}) !! "phoneNumber"
    = Some "Phone number is required".
Proof.
  rewrite !validateTicketForm_phoneNumber, !lookup_singleton_eq.
  repeat split; vm_compute; reflexivity.
Qed.


(** ** Capacity *)

Lemma lit_String (a : ascii) (s : string) :
  lit (String a s) = N_of_ascii a :: lit s.
Proof. reflexivity. Qed.

Lemma digits_stops (rest : jsstring) (acc : option Z) :
  stops rest → digits rest acc = acc.
Proof. destruct rest as [|c rest]; [done |]. simpl. by intros ->. Qed.

Lemma digits_numeral_acc (u : uint) (p : positive) (rest : jsstring) :
  stops rest →
  digits (lit (NilEmpty.string_of_uint u) ++ rest) (Some (Z.pos p))
  = Some (Z.pos (Pos.of_uint_acc u p)).
Proof.
  intros Hrest. revert p.
  induction u; intros p; simpl; [by apply digits_stops | ..];
    rewrite <- IHu; f_equal; f_equal; lia.
Qed.

Lemma digits_numeral (u : uint) (acc : option Z) (rest : jsstring) :
  stops rest → u ≠ Nil → default 0 acc = 0 →
  digits (lit (NilEmpty.string_of_uint u) ++ rest) acc = Some (Z.of_uint u).
Proof.
  intros Hrest Hu Hacc. unfold Z.of_uint. revert acc Hu Hacc.
  induction u; intros acc Hu Hacc; [done | ..]; simpl; rewrite Hacc; simpl.
  2-10: rewrite <- (digits_numeral_acc _ _ rest) by done;
        f_equal; f_equal; lia.
  destruct u; [by apply digits_stops | ..]; by apply IHu.
Qed.

Lemma numeral_head (u : uint) :
  u ≠ Nil →
  ∃ c tail, lit (NilEmpty.string_of_uint u) = c :: tail
            ∧ isDigit c = true.
Proof. intros Hu. destruct u; [done | ..]; simpl; eauto. Qed.

Lemma parseInt_digit_head (c : N) (rest : jsstring) :
  isDigit c = true → parseInt (c :: rest) = digits (c :: rest) None.
Proof.
  intros Hc. unfold parseInt.
  rewrite trimStart_id by by apply isDigit_not_isWhiteSpace.
  unfold isDigit in Hc. apply andb_true_iff in Hc as [Hc _].
  apply N.leb_le in Hc.
  destruct (N.eqb_spec c 45); [lia |]. destruct (N.eqb_spec c 43); [lia |].
  done.
Qed.

(** [parseInt] reads a decimal numeral back, whatever follows it, as long
    as no digit follows it. *)
Lemma parseInt_numeral_then (n : Z) (rest : jsstring) :
  stops rest → parseInt (lit (Number_toString n) ++ rest) = Some n.
Proof.
  intros Hrest. unfold Number_toString. destruct n as [|p|p].
  - change (parseInt (48%N :: rest) = Some 0).
    rewrite parseInt_digit_head by done.
    change (digits rest (Some 0) = Some 0). by apply digits_stops.
  - change (parseInt (lit (NilZero.string_of_uint (Pos.to_uint p)) ++ rest)
            = Some (Z.pos p)).
    pose proof (Unsigned.to_uint_nonnil p) as Hnil.
    assert (NilZero.string_of_uint (Pos.to_uint p)
            = NilEmpty.string_of_uint (Pos.to_uint p)) as ->.
    { by destruct (Pos.to_uint p). }
    destruct (numeral_head _ Hnil) as (c & tail & Hlit & Hc).
    rewrite Hlit.
    change ((c :: tail) ++ rest) with (c :: tail ++ rest).
    rewrite parseInt_digit_head by done.
    change (c :: tail ++ rest) with ((c :: tail) ++ rest).
    rewrite <- Hlit, digits_numeral by done.
    unfold Z.of_uint. by rewrite Unsigned.of_to.
  - change (parseInt
              (45%N :: lit (NilZero.string_of_uint (Pos.to_uint p)) ++ rest)
            = Some (Z.neg p)).
    pose proof (Unsigned.to_uint_nonnil p) as Hnil.
    assert (NilZero.string_of_uint (Pos.to_uint p)
            = NilEmpty.string_of_uint (Pos.to_uint p)) as ->.
    { by destruct (Pos.to_uint p). }
    unfold parseInt. rewrite trimStart_id by done.
    change (45 =? 45)%N with true. cbv iota.
    rewrite digits_numeral by done.
    unfold Z.of_uint. by rewrite Unsigned.of_to.
Qed.

Lemma parseInt_numeral (n : Z) : parseInt (lit (Number_toString n)) = Some n.
Proof.
  rewrite <- (app_nil_r (lit _)). by apply parseInt_numeral_then.
Qed.

Lemma trimStart_head (s rest : jsstring) (c : N) :
  trimStart s = c :: rest → isWhiteSpace c = false.
Proof.
  induction s as [|c' s IH]; simpl; [done |].
  destruct (isWhiteSpace c') eqn:Hc'; [done |]. by intros [= <- _].
Qed.

(** A string with no leading integer is not a number for [parseInt]. *)
Lemma parseInt_NaN (s rest : jsstring) (c : N) :
  trimStart s = c :: rest →
  isDigit c = false → c ≠ 43%N → c ≠ 45%N →
  parseInt s = None.
Proof.
  intros Hs Hc Hplus Hminus. unfold parseInt. rewrite Hs.
  destruct (N.eqb_spec c 45); [done |]. destruct (N.eqb_spec c 43); [done |].
  simpl. by rewrite Hc.
Qed.

(** What is left of a string that does not start with white space is not
    blank. *)
Lemma trimStart_snoc_nonblank (l : jsstring) (c : N) :
  isWhiteSpace c = false → trimStart (l ++ [c]) ≠ [].
Proof.
  intros Hc. induction l as [|c' l IH]; simpl.
  - by rewrite Hc.
  - by destruct (isWhiteSpace c').
Qed.

Lemma trim_nonblank (s rest : jsstring) (c : N) :
  trimStart s = c :: rest → isWhiteSpace c = false → trim s ≠ [].
Proof.
  intros Hs Hc. unfold trim, trimEnd. rewrite Hs. simpl.
  intros Hnil. apply (f_equal (@rev N)) in Hnil.
  rewrite rev_involutive in Hnil. simpl in Hnil.
  by apply (trimStart_snoc_nonblank (rev rest) c).
Qed.

Lemma numeral_nonblank (n : Z) (rest : jsstring) :
  trim (lit (Number_toString n) ++ rest) ≠ [].
Proof.
  assert (∃ c tail, lit (Number_toString n) = c :: tail
                    ∧ isWhiteSpace c = false) as (c & tail & Hlit & Hc).
  { unfold Number_toString. destruct n as [|p|p]; simpl.
    - by exists 48%N, [].
    - pose proof (Unsigned.to_uint_nonnil p) as Hnil.
      destruct (Pos.to_uint p); [done | ..]; simpl; eauto.
    - rewrite lit_String. eauto. }
  rewrite Hlit. simpl. eapply trim_nonblank; [| done].
  by apply trimStart_id.
Qed.


(** C9, as the code has it: a capacity that is missing or blank gets the
    required message.  Otherwise the capacity is read by [parseInt]: after
    leading white space and an optional sign, the digits up to the first
    other character.  If that gives an integer from 1 to 100 there is no
    capacity error, else (no integer, or one below 1 or above 100) the
    range message.  So the numeral of an integer [n] is accepted exactly
    when [n] is from 1 to 100 (0 and 101 are rejected), a string that
    starts with no integer is rejected, and a numeral followed by other
    characters counts as the numeral. *)
Theorem capacity_validation (formData : gmap string jsstring) :
  let input := formData !! "capacity" in
  let err := errors (FormValidator.validateVehicleForm formData) !! "capacity" in
  let range := Some "Capacity must be between 1 and 100" in
  (err = Some "Capacity is required"
   ↔ input = None ∨ ∃ s, input = Some s ∧ trim s = [])
  ∧ (∀ s, input = Some s → trim s ≠ [] →
       err = match parseInt s with
             | Some n => if (1 <=? n) && (n <=? 100) then None else range
             | None => range
             end)
  ∧ (∀ n : Z, input = Some (lit (Number_toString n)) →
       err = if (1 <=? n) && (n <=? 100) then None else range)
  ∧ (∀ s c rest, input = Some s → trimStart s = c :: rest →
       isDigit c = false → c ≠ 43%N → c ≠ 45%N →
       err = range)
  ∧ (∀ (n : Z) c rest, input = Some (lit (Number_toString n) ++ c :: rest) →
       isDigit c = false →
       err = if (1 <=? n) && (n <=? 100) then None else range).
Proof.
  intros input err range.
  assert (∀ s, input = Some s → trim s ≠ [] →
            err = match parseInt s with
                  | Some n => if (1 <=? n) && (n <=? 100) then None else range
                  | None => range
                  end) as Hrule.
  { intros s Hs Hblank. subst err. rewrite validateVehicleForm_capacity.
    fold input. rewrite Hs. simpl. rewrite bool_decide_eq_false_2 by done.
    destruct (parseInt s) as [n|]; [| done].
    destruct (Z.ltb_spec n 1), (Z.gtb_spec n 100),
      (Z.leb_spec 1 n), (Z.leb_spec n 100); simpl; done || lia. }
  split; [| split; [done | split; [| split]]].
  - subst err. rewrite validateVehicleForm_capacity. fold input.
    destruct input as [s|]; simpl.
    + case_bool_decide as Hblank.
      * split; [| done]. intros _. right. by exists s.
      * split.
        -- destruct (parseInt s) as [n|]; [| done].
           by destruct ((n <? 1) || (n >? 100)).
        -- by intros [[=] | (s' & [= <-] & Hs)].
    + split; [| done]. intros _. by left.
  - intros n Hn. rewrite (Hrule _ Hn), parseInt_numeral; [done |].
    rewrite <- (app_nil_r (lit _)). apply numeral_nonblank.
  - intros s c rest Hs Hstart Hc Hplus Hminus.
    rewrite (Hrule _ Hs), (parseInt_NaN _ _ _ Hstart); [done ..|].
    eapply trim_nonblank; [done |]. by eapply trimStart_head.
  - intros n c rest Hn Hc.
    rewrite (Hrule _ Hn), parseInt_numeral_then; [done.. |].
    apply numeral_nonblank.
Qed.

(** C9 fails as stated: "12abc" is not a number, yet there is no capacity
    error for it; and a capacity of three spaces is neither empty nor a
    number, yet it gets the required message and not the range message. *)
Lemma capacity_validation_lenient :
  errors (FormValidator.validateVehicleForm {[ "capacity" := lit "12abc" ]})
    !! "capacity" = None
  ∧ errors (FormValidator.validateVehicleForm {[ "capacity" := lit "   " ]})
      !! "capacity" = Some "Capacity is required".
Proof.
  rewrite !validateVehicleForm_capacity, !lookup_singleton_eq.
  split; vm_compute; reflexivity.
Qed.

(** * Scenarios of the specification, evaluated *)

(** An offline write of a ticket: the object returned carries the
    identifier, and the tickets collection then holds the ticket with that
    identifier under [id]. *)
Example offline_ticket_is_queued :
  let ticket : gmap string json :=
    {[ "vehicle_id" := JStr "v1"; "amount" := JNum 50; "seat_number" := JNum 4 ]} in
  let write := ApiClient.post (Rejected Scenario.timed_out) 1700000000000
                 "/tickets" ticket in
  result write Scenario.fresh
    = Normal (JObj {[ "ticket_id" := JStr "1700000000000" ]})
  ∧ load "/tickets" (after write Scenario.fresh)
    = Normal (JArr [JObj (<["id" := JStr "1700000000000"]> ticket)]).
Proof. split; reflexivity. Qed.

(** A successful read returns the payload and touches nothing. *)
Example online_read :
  ApiClient.get (Resolved (mkResponse (JArr Scenario.two_vehicles) 200))
    "/vehicles" Scenario.fresh
  = (Normal (JArr Scenario.two_vehicles), Scenario.fresh).
Proof. reflexivity. Qed.

(** A read that cannot reach the server and finds nothing cached: the
    error is raised again, after the toast of [handleError]. *)
Example offline_read_cache_miss :
  ApiClient.get (Rejected Scenario.timed_out) "/vehicles" Scenario.fresh
  = (Throw Scenario.timed_out,
     mkWorld ∅
       [GetItem STORAGE_KEYS.VEHICLES;
        ConsoleError "API Error:" Scenario.timed_out;
        NotificationShow
          (mkToast ToastType.error "An unexpected error occurred")]).
Proof. reflexivity. Qed.

Example phone_numbers :
  RegExp.test PHONE_PATTERN (lit "0712345678") = true
  ∧ RegExp.test PHONE_PATTERN (lit "+254112345678") = true
  ∧ RegExp.test PHONE_PATTERN (lit "0812345678") = false
  ∧ RegExp.test PHONE_PATTERN (lit "071234567") = false
  ∧ RegExp.test PHONE_PATTERN (lit "07123456789") = false.
Proof. repeat split; reflexivity. Qed.

Example number_plates :
  RegExp.test PLATE_PATTERN (lit "KCA 123A") = true
  ∧ RegExp.test PLATE_PATTERN (lit "KCA123A") = false
  ∧ RegExp.test PLATE_PATTERN (lit "kca 123a") = false.
Proof. repeat split; reflexivity. Qed.

Example capacities :
  let capacity_error (s : string) :=
    errors (FormValidator.validateVehicleForm {[ "capacity" := lit s ]})
      !! "capacity" in
  capacity_error "1" = None
  ∧ capacity_error "100" = None
  ∧ capacity_error "0" = Some "Capacity must be between 1 and 100"
  ∧ capacity_error "101" = Some "Capacity must be between 1 and 100"
  ∧ capacity_error "abc" = Some "Capacity must be between 1 and 100"
  ∧ capacity_error "" = Some "Capacity is required".
Proof.
  cbv beta zeta. rewrite !validateVehicleForm_capacity, !lookup_singleton_eq.
  repeat split; vm_compute; reflexivity.
Qed.

(** * More of the data-access layer *)

(** A read never changes the Local Cache: whatever the network does and
    whatever is cached, the collections after [get] are the ones before,
    and [get] has called neither [setItem] nor [removeItem].  A read that
    succeeds leaves the whole world as it is. *)
Theorem get_never_writes
    (net : Axios.outcome) (endpoint : string) (w : world) :
  let w' := after (ApiClient.get net endpoint) w in
  localStorage w' = localStorage w
  ∧ List.filter isCacheWrite (emitted w w') = []
  ∧ (∀ r, net = Resolved r →
       ApiClient.get net endpoint w = (Normal (Axios.data r), w)).
Proof.
  simpl. destruct net as [r|error].
  - run. unfold emitted. simpl. rewrite drop_all. repeat split.
    intros r' [= <-]. done.
  - split; [| split; [| done]].
    + run. destruct (ApiClient.isConnectionError error); [| done].
      destruct (ApiClient.getStorageKey endpoint) as [key|]; simpl; [| done].
      by destruct (localStorage w !! key).
    + run. destruct (ApiClient.isConnectionError error); simpl.
      * destruct (ApiClient.getStorageKey endpoint) as [key|]; simpl.
        -- destruct (localStorage w !! key); simpl;
             by rewrite <- ?app_assoc, emitted_app.
        -- by rewrite <- ?app_assoc, emitted_app.
      * by rewrite <- ?app_assoc, emitted_app.
Qed.

(** A write that fails with a server or application failure raises the
    error again after one error toast and does not touch the Local Cache:
    nothing is read, nothing is queued. *)
Theorem post_server_failure
    (error : AxiosError) (now : Z) (endpoint : string)
    (data : gmap string json) (w : world) :
  ApiClient.isConnectionError error = false →
  let w' := after (ApiClient.post (Rejected error) now endpoint data) w in
  result (ApiClient.post (Rejected error) now endpoint data) w = Throw error
  ∧ localStorage w' = localStorage w
  ∧ cacheAccesses (emitted w w') = []
  ∧ notifications (emitted w w') =
      [NotificationShow
         (mkToast ToastType.error (ApiClient.errorMessage error))].
Proof.
  intros Hconn. run. rewrite Hconn. simpl.
  by rewrite <- app_assoc, emitted_app.
Qed.

Lemma post_server_failure_witness :
  result (ApiClient.post (Rejected Scenario.server_error) 1700000000000
            "/vehicles" Scenario.new_vehicle) Scenario.cached_vehicles
    = Throw Scenario.server_error
  ∧ localStorage
      (after (ApiClient.post (Rejected Scenario.server_error) 1700000000000
                "/vehicles" Scenario.new_vehicle) Scenario.cached_vehicles)
    = localStorage Scenario.cached_vehicles.
Proof.
  destruct (post_server_failure Scenario.server_error 1700000000000
              "/vehicles" Scenario.new_vehicle Scenario.cached_vehicles
              eq_refl)
    as (Hres & Hstore & _).
  split; [exact Hres | exact Hstore].
Defined.

(** An offline write on a path with a collection key appends one record
    to that collection and changes no other collection.  The record is the
    payload with the synthesized identifier under [id], in place of an
    [id] of the payload if it has one, and that identifier is the one the
    write returns. *)
Theorem post_offline_queues
    (error : AxiosError) (now : Z) (endpoint key : string)
    (data : gmap string json) (w : world) :
  ApiClient.isConnectionError error = true →
  ApiClient.getStorageKey endpoint = Some key →
  let w' := after (ApiClient.post (Rejected error) now endpoint data) w in
  let previous := default [] (localStorage w !! key) in
  ∃ (id : string) (record : gmap string json),
    result (ApiClient.post (Rejected error) now endpoint data) w
      = Normal (JObj {[ ApiClient.mockKey endpoint := JStr id ]})
    ∧ localStorage w' = <[key := previous ++ [JObj record]]> (localStorage w)
    ∧ record !! "id" = Some (JStr id)
    ∧ (∀ field, field ≠ "id" → record !! field = data !! field)
    ∧ (∀ other, other ≠ key → localStorage w' !! other = localStorage w !! other).
Proof.
  intros Hconn Hkey. simpl.
  exists (Number_toString now), (<["id" := JStr (Number_toString now)]> data).
  unfold result, after. rewrite post_offline_run by done.
  unfold save. run. rewrite Hkey. simpl.
  repeat split.
  - apply lookup_insert_eq.
  - intros field Hfield. by rewrite lookup_insert_ne.
  - intros other Hother. by rewrite lookup_insert_ne.
Qed.

Lemma post_offline_queues_witness :
  ∃ (id : string) (record : gmap string json),
    result (ApiClient.post (Rejected Scenario.timed_out) 1700000000000
              "/vehicles" Scenario.new_vehicle) Scenario.cached_vehicles
      = Normal (JObj {[ "vehicle_id" := JStr id ]})
    ∧ localStorage
        (after (ApiClient.post (Rejected Scenario.timed_out) 1700000000000
                  "/vehicles" Scenario.new_vehicle) Scenario.cached_vehicles)
        !! STORAGE_KEYS.VEHICLES
      = Some (Scenario.two_vehicles ++ [JObj record])
    ∧ record !! "id" = Some (JStr id).
Proof.
  destruct (post_offline_queues Scenario.timed_out 1700000000000
              "/vehicles" STORAGE_KEYS.VEHICLES Scenario.new_vehicle
              Scenario.cached_vehicles eq_refl eq_refl)
    as (id & record & Hres & Hstore & Hid & _).
  exists id, record. split; [exact Hres |]. split; [| exact Hid].
  rewrite Hstore. apply lookup_insert_eq.
Defined.

(** A read on a path without a collection key cannot fall back: whatever
    the failure, connectivity failure included, the error is raised again
    after one error toast, and the Local Cache is not consulted.  That is
    the case of the receipt, occupancy and transaction reads. *)
Theorem get_failure_without_collection
    (error : AxiosError) (endpoint : string) (w : world) :
  ApiClient.getStorageKey endpoint = None →
  let w' := after (ApiClient.get (Rejected error) endpoint) w in
  result (ApiClient.get (Rejected error) endpoint) w = Throw error
  ∧ notifications (emitted w w') =
      [NotificationShow
         (mkToast ToastType.error (ApiClient.errorMessage error))]
  ∧ cacheAccesses (emitted w w') = [].
Proof.
  intros Hkey. run. rewrite Hkey.
  destruct (ApiClient.isConnectionError error); simpl;
    by rewrite <- app_assoc, emitted_app.
Qed.

Lemma get_failure_without_collection_witness :
  result (ApiClient.get (Rejected Scenario.timed_out) "/receipts/42")
    Scenario.cached_vehicles = Throw Scenario.timed_out.
Proof.
  exact (proj1 (get_failure_without_collection Scenario.timed_out
                  "/receipts/42" Scenario.cached_vehicles eq_refl)).
Defined.

(** The five collections have five different keys. *)
Lemma getStorageKey_inj (endpoint1 endpoint2 key : string) :
  ApiClient.getStorageKey endpoint1 = Some key →
  ApiClient.getStorageKey endpoint2 = Some key →
  endpoint1 = endpoint2.
Proof.
  intros H1 H2.
  destruct (getStorageKey_cases _ _ H1)
    as [[-> ->]|[[-> ->]|[[-> ->]|[[-> ->]|[-> ->]]]]];
    destruct (getStorageKey_cases _ _ H2)
      as [[-> E]|[[-> E]|[[-> E]|[[-> E]|[-> E]]]]]; done.
Qed.

(** The collections do not interfere: saving a record under one resource
    path changes what [load] returns for no other resource path. *)
Theorem save_other_collection
    (endpoint1 endpoint2 : string) (record : json) (w : world) :
  endpoint1 ≠ endpoint2 →
  load endpoint2 (save endpoint1 record w) = load endpoint2 w.
Proof.
  intros Hne. unfold load, save. run.
  destruct (ApiClient.getStorageKey endpoint1) as [key1|] eqn:H1; [| done].
  destruct (ApiClient.getStorageKey endpoint2) as [key2|] eqn:H2; [| done].
  simpl. rewrite lookup_insert_ne; [done |].
  intros <-. by apply Hne, (getStorageKey_inj _ _ key1).
Qed.

Lemma save_other_collection_witness :
  load "/tickets" (save "/vehicles" (Scenario.vehicle "3" "Matatu C")
                     Scenario.cached_vehicles)
  = load "/tickets" Scenario.cached_vehicles.
Proof.
  apply (save_other_collection "/vehicles" "/tickets"). discriminate.
Defined.

(** ** Series of calls *)

Lemma post_offline_storage
    (error : AxiosError) (now : Z) (endpoint key : string)
    (data : gmap string json) (w : world) :
  ApiClient.isConnectionError error = true →
  ApiClient.getStorageKey endpoint = Some key →
  localStorage (after (ApiClient.post (Rejected error) now endpoint data) w)
  = <[key := default [] (localStorage w !! key) ++ [mockData now data]]>
      (localStorage w).
Proof.
  intros Hconn Hkey. unfold after. rewrite post_offline_run by done.
  unfold save. run. by rewrite Hkey.
Qed.

Lemma offlineWrites_storage
    (error : AxiosError) (endpoint key : string)
    (writes : list (Z * gmap string json)) (w : world) :
  ApiClient.isConnectionError error = true →
  ApiClient.getStorageKey endpoint = Some key →
  writes ≠ [] →
  localStorage (session (offlineWrites error endpoint writes) w) !! key
  = Some (default [] (localStorage w !! key)
          ++ ((fun write => mockData write.1 write.2) <$> writes)).
Proof.
  intros Hconn Hkey. revert w.
  induction writes as [|[now data] writes IH]; intros w Hne; [done |].
  simpl. destruct writes as [|write writes].
  - simpl. rewrite (post_offline_storage _ _ _ key) by done.
    apply lookup_insert_eq.
  - rewrite IH by done. rewrite (post_offline_storage _ _ _ key) by done.
    rewrite lookup_insert_eq. simpl. by rewrite <- app_assoc.
Qed.

(** What is written offline is read offline: after a series of offline
    writes on a path with a collection key, a read of that path that
    fails with a connectivity failure returns what was cached before
    followed by the records of the writes, one per write, in the order of
    the writes. *)
Theorem offline_writes_then_offline_read
    (error error' : AxiosError) (endpoint key : string)
    (writes : list (Z * gmap string json)) (w : world) :
  ApiClient.isConnectionError error = true →
  ApiClient.isConnectionError error' = true →
  ApiClient.getStorageKey endpoint = Some key →
  writes ≠ [] →
  result (ApiClient.get (Rejected error') endpoint)
    (session (offlineWrites error endpoint writes) w)
  = Normal (JArr (default [] (localStorage w !! key)
                  ++ ((fun write => mockData write.1 write.2) <$> writes))).
Proof.
  intros Hconn Hconn' Hkey Hne.
  pose proof (offlineWrites_storage _ _ _ _ w Hconn Hkey Hne) as Hstore.
  run. rewrite Hconn', Hkey. simpl. by rewrite Hstore.
Qed.

Lemma offline_writes_then_offline_read_witness :
  result (ApiClient.get (Rejected Scenario.timed_out) "/vehicles")
    (session
       (offlineWrites Scenario.timed_out "/vehicles"
          [(1700000000000, Scenario.new_vehicle);
           (1700000000005, Scenario.new_vehicle)])
       Scenario.cached_vehicles)
  = Normal (JArr (Scenario.two_vehicles
                  ++ [mockData 1700000000000 Scenario.new_vehicle;
                      mockData 1700000000005 Scenario.new_vehicle])).
Proof.
  apply (offline_writes_then_offline_read Scenario.timed_out
           Scenario.timed_out "/vehicles" STORAGE_KEYS.VEHICLES
           [(1700000000000, Scenario.new_vehicle);
            (1700000000005, Scenario.new_vehicle)]
           Scenario.cached_vehicles eq_refl eq_refl eq_refl).
  discriminate.
Defined.

Lemma get_storage (net : Axios.outcome) (endpoint : string) (w : world) :
  localStorage (after (ApiClient.get net endpoint) w) = localStorage w.
Proof.
  destruct net as [r|error]; run; [done |].
  destruct (ApiClient.isConnectionError error); [| done].
  destruct (ApiClient.getStorageKey endpoint) as [key|]; simpl; [| done].
  by destruct (localStorage w !! key).
Qed.

Lemma perform_provenance (op : operation) (key : string) (w : world)
    (record : json) :
  In record (default [] (localStorage (after (perform op) w) !! key)) →
  In record (default [] (localStorage w !! key)) ∨ In record (queuedBy key op).
Proof.
  destruct op as [net endpoint | net now endpoint data]; simpl.
  - rewrite get_storage. by left.
  - destruct net as [r|error].
    + run. destruct (ApiClient.getStorageKey endpoint) as [key'|]; simpl;
        [| by left].
      destruct (decide (key' = key)) as [-> | Hne].
      * by rewrite lookup_delete_eq.
      * rewrite lookup_delete_ne by done. by left.
    + destruct (ApiClient.isConnectionError error) eqn:Hconn; simpl.
      * destruct (ApiClient.getStorageKey endpoint) as [key'|] eqn:Hkey.
        -- rewrite (post_offline_storage _ _ _ key') by done.
           destruct (decide (key' = key)) as [-> | Hne].
           ++ rewrite lookup_insert_eq. simpl.
              rewrite bool_decide_eq_true_2 by done.
              intros [H | H]%in_app_or; [by left | by right].
           ++ rewrite lookup_insert_ne by done. by left.
        -- unfold after. rewrite post_offline_run by done.
           unfold save. run. rewrite Hkey. by left.
      * run. rewrite Hconn. by left.
Qed.

Lemma queued_spec (key : string) (ops : list operation) (record : json) :
  In record (queued key ops)
  ↔ ∃ error now endpoint data,
      In (Write (Rejected error) now endpoint data) ops
      ∧ ApiClient.isConnectionError error = true
      ∧ ApiClient.getStorageKey endpoint = Some key
      ∧ record = mockData now data.
Proof.
  unfold queued. rewrite in_flat_map. split.
  - intros (op & Hop & Hin).
    destruct op as [|[|error] now endpoint data]; try done. simpl in Hin.
    destruct (ApiClient.isConnectionError error) eqn:Hconn; [| done].
    destruct (bool_decide_reflect
                (ApiClient.getStorageKey endpoint = Some key)) as [Hkey|];
      [| done].
    destruct Hin as [<- | []]. by exists error, now, endpoint, data.
  - intros (error & now & endpoint & data & Hop & Hconn & Hkey & ->).
    exists (Write (Rejected error) now endpoint data). split; [done |].
    simpl. rewrite Hconn, bool_decide_eq_true_2 by done. by left.
Qed.

Lemma perform_unanswered_storage (op : operation) (w w' : world) :
  localStorage w = localStorage w' →
  localStorage (after (perform (unanswered op)) w)
  = localStorage (after (perform op) w').
Proof.
  intros Hst. destruct op as [net endpoint | net now endpoint data]; simpl.
  - by rewrite !get_storage.
  - destruct net as [r|error]; simpl.
    + run. destruct (ApiClient.getStorageKey endpoint); simpl; by rewrite Hst.
    + assert (ApiClient.isConnectionError
                (mkError (Axios.code error)
                   ((fun r => mkResponse JNull (Axios.status r))
                      <$> Axios.response error) (Axios.message error))
              = ApiClient.isConnectionError error) as Hconn.
      { unfold ApiClient.isConnectionError. simpl.
        by destruct (Axios.response error). }
      run. rewrite Hconn.
      destruct (ApiClient.isConnectionError error); simpl; [| done].
      destruct (ApiClient.getStorageKey endpoint); simpl; by rewrite Hst.
Qed.

Lemma session_unanswered_storage (ops : list operation) (w w' : world) :
  localStorage w = localStorage w' →
  localStorage (session (unanswered <$> ops) w)
  = localStorage (session ops w').
Proof.
  revert w w'. induction ops as [|op ops IH]; intros w w' Hst; [done |].
  simpl. apply IH. by apply perform_unanswered_storage.
Qed.

(** The Local Cache holds nothing but what it held and what the offline
    writes have queued.  After any series of reads and writes, whatever
    the network does, every record of a collection was in that collection
    before the series or has been queued in it by the series; so has every
    record that a read returns from the cache.  A record queued is the
    payload of a write of the series that failed with a connectivity
    failure on the path of the collection, with its synthesized
    identifier.  Nothing the server has sent is stored: the cache after
    the series is the same when the body of every response is replaced by
    [null]. *)
Theorem cache_holds_only_queued_records
    (ops : list operation) (w : world) :
  let provenance (key : string) (record : json) :=
    In record (default [] (localStorage w !! key))
    ∨ In record (queued key ops) in
  (∀ key record,
     In record (default [] (localStorage (session ops w) !! key)) →
     provenance key record)
  ∧ (∀ error endpoint v,
       result (ApiClient.get (Rejected error) endpoint) (session ops w)
         = Normal v →
       ∃ key l, ApiClient.getStorageKey endpoint = Some key
                ∧ v = JArr l
                ∧ ∀ record, In record l → provenance key record)
  ∧ (∀ key record,
       In record (queued key ops)
       ↔ ∃ error now endpoint data,
           In (Write (Rejected error) now endpoint data) ops
           ∧ ApiClient.isConnectionError error = true
           ∧ ApiClient.getStorageKey endpoint = Some key
           ∧ record = mockData now data)
  ∧ localStorage (session (unanswered <$> ops) w)
    = localStorage (session ops w).
Proof.
  simpl.
  assert (∀ key record,
            In record (default [] (localStorage (session ops w) !! key)) →
            In record (default [] (localStorage w !! key))
            ∨ In record (queued key ops)) as Hinv.
  { revert w. induction ops as [|op ops IH]; intros w key record Hin;
      [by left |].
    simpl in Hin. apply IH in Hin as [Hin | Hin].
    - apply perform_provenance in Hin as [Hin | Hin]; [by left |].
      right. simpl. apply in_or_app. by left.
    - right. simpl. apply in_or_app. by right. }
  split; [done |]. split; [| split].
  - intros error endpoint v. run.
    destruct (ApiClient.isConnectionError error); [| done].
    destruct (ApiClient.getStorageKey endpoint) as [key|]; simpl; [| done].
    destruct (localStorage (session ops w) !! key) as [l|] eqn:Hl; simpl;
      [| done].
    intros [= <-]. exists key, l. split; [done |]. split; [done |].
    intros record Hin. apply Hinv. by rewrite Hl.
  - intros key record. apply queued_spec.
  - by apply session_unanswered_storage.
Qed.

(** In a browser with an empty cache, after a vehicle is registered
    offline and the vehicles are then read online, the vehicles collection
    holds no record but that of the registration: the two vehicles of the
    server's answer are not in it. *)
Lemma cache_holds_only_queued_records_witness :
  List.Forall
    (fun record => record = mockData 1700000000000 Scenario.new_vehicle)
    (default []
       (localStorage
          (session
             [Write (Rejected Scenario.timed_out) 1700000000000 "/vehicles"
                Scenario.new_vehicle;
              Read (Resolved (mkResponse (JArr Scenario.two_vehicles) 200))
                "/vehicles"]
             Scenario.fresh) !! STORAGE_KEYS.VEHICLES)).
Proof.
  apply List.Forall_forall. intros record Hin.
  destruct (cache_holds_only_queued_records
              [Write (Rejected Scenario.timed_out) 1700000000000 "/vehicles"
                 Scenario.new_vehicle;
               Read (Resolved (mkResponse (JArr Scenario.two_vehicles) 200))
                 "/vehicles"]
              Scenario.fresh) as (Hprov & _).
  destruct (Hprov _ _ Hin) as [[] | [<- | []]]. reflexivity.
Defined.

(** ** The messages of the toasts *)

Lemma includes_ECONNREFUSED_connection_error (error : AxiosError) :
  includes (Axios.message error) "ECONNREFUSED" = true →
  ApiClient.isConnectionError error = true.
Proof. unfold ApiClient.isConnectionError. intros ->. apply orb_true_r. Qed.

Lemma errorMessage_local_data (error : AxiosError) :
  ApiClient.errorMessage error = "Backend unavailable. Using local data."
  ↔ Axios.response error = None
    ∧ includes (Axios.message error) "ECONNREFUSED" = true.
Proof.
  unfold ApiClient.errorMessage.
  destruct (Axios.response error) as [r|].
  - split; [| by intros [[=] _]].
    destruct (Axios.status r =? 500); [done |].
    destruct (Axios.status r =? 404); [done |].
    by destruct (match Axios.code error with
                 | Some c => String.eqb c "ECONNABORTED"
                 | None => false
                 end).
  - destruct (includes (Axios.message error) "ECONNREFUSED"); split;
      try done. by intros [_ [=]].
Qed.

(** The toast that says local data is in use is shown by a read exactly
    when none is: [get] shows "Backend unavailable. Using local data."
    if and only if the connection was refused without any response and
    nothing is cached for the path; the read then raises the error.  When
    cached data is returned the toast is not shown. *)
Theorem get_local_data_toast
    (error : AxiosError) (endpoint : string) (w : world) :
  let w' := after (ApiClient.get (Rejected error) endpoint) w in
  (In "Backend unavailable. Using local data." (toastMessages (emitted w w'))
   ↔ Axios.response error = None
     ∧ includes (Axios.message error) "ECONNREFUSED" = true
     ∧ load endpoint w = Normal JNull)
  ∧ (In "Backend unavailable. Using local data." (toastMessages (emitted w w'))
     → result (ApiClient.get (Rejected error) endpoint) w = Throw error).
Proof.
  simpl. unfold load. run.
  destruct (ApiClient.isConnectionError error) eqn:Hconn; simpl.
  - destruct (ApiClient.getStorageKey endpoint) as [key|]; simpl.
    + destruct (localStorage w !! key) as [l|]; simpl;
        rewrite <- ?app_assoc, emitted_app; simpl.
      * split; [| done]. split; [done |]. by intros (_ & _ & [=]).
      * split; [| done]. split.
        -- intros [H | []]. by apply errorMessage_local_data in H as [? ?].
        -- intros (H1 & H2 & _). left. by apply errorMessage_local_data.
    + rewrite <- ?app_assoc, emitted_app; simpl.
      split; [| done]. split.
      * intros [H | []]. by apply errorMessage_local_data in H as [? ?].
      * intros (H1 & H2 & _). left. by apply errorMessage_local_data.
  - rewrite <- ?app_assoc, emitted_app; simpl. split; [| done]. split.
    + intros [H | []]. apply errorMessage_local_data in H as [_ H].
      apply includes_ECONNREFUSED_connection_error in H. congruence.
    + intros (_ & H & _).
      apply includes_ECONNREFUSED_connection_error in H. congruence.
Qed.

(** A write never reports a timeout or an unreachable backend: those
    failures are absorbed by the offline branch.  Whatever the network
    does, [post] shows at most one toast, and its message is one of the
    server error, the not found and the unexpected error messages. *)
Theorem post_toast_messages
    (net : Axios.outcome) (now : Z) (endpoint : string)
    (data : gmap string json) (w : world) :
  let w' := after (ApiClient.post net now endpoint data) w in
  (length (toastMessages (emitted w w')) ≤ 1)%nat
  ∧ ∀ msg, In msg (toastMessages (emitted w w')) →
      msg = "Server error. Please try again later."
      ∨ msg = "Resource not found."
      ∨ msg = "An unexpected error occurred".
Proof.
  simpl. destruct net as [r|error].
  - run. destruct (ApiClient.getStorageKey endpoint); simpl.
    + rewrite emitted_app. simpl. split; [lia | done].
    + unfold emitted. rewrite drop_all. simpl. split; [lia | done].
  - destruct (ApiClient.isConnectionError error) eqn:Hconn.
    + unfold after. rewrite post_offline_run by done.
      unfold save. run.
      destruct (ApiClient.getStorageKey endpoint); simpl;
        rewrite <- ?app_assoc, emitted_app; simpl; (split; [lia | done]).
    + run. rewrite Hconn. simpl. rewrite <- ?app_assoc, emitted_app. simpl.
      split; [lia |]. intros msg [<- | []].
      unfold ApiClient.errorMessage.
      rewrite (connection_error_not_aborted _ Hconn).
      destruct (Axios.response error) as [r|].
      * destruct (Axios.status r =? 500); [tauto |].
        destruct (Axios.status r =? 404); tauto.
      * destruct (includes (Axios.message error) "ECONNREFUSED") eqn:Hinc;
          [| tauto].
        apply includes_ECONNREFUSED_connection_error in Hinc. congruence.
Qed.

(** * More of the validation rules *)

Section MoreChecks.

Context (m : gmap string string) (k : string).

Lemma lookup_check_eq (b : bool) (v : string) :
  m !! k = None →
  (if b then <[k := v]> m else m) !! k = if b then Some v else None.
Proof. intros. destruct b; by rewrite ?lookup_insert_eq. Qed.

End MoreChecks.

(** The entry of a field in the errors of a validator. *)
Ltac lookup_field :=
  unfold FormValidator.validateVehicleForm, FormValidator.validateTicketForm,
    FormValidator.validateParcelForm, FormValidator.finish;
  cbv zeta; cbn [errors];
  skip_checks;
  first [ rewrite lookup_check2_eq
        | rewrite lookup_check_num_eq
        | rewrite lookup_check_eq ];
  [ reflexivity | skip_checks; apply lookup_empty ].

(** The entry of a name that is not a field of the validator. *)
Ltac lookup_no_field :=
  unfold FormValidator.validateVehicleForm, FormValidator.validateTicketForm,
    FormValidator.validateParcelForm, FormValidator.finish;
  cbv zeta; cbn [errors];
  skip_checks; apply lookup_empty.

Lemma collectsAll_intro (e : gmap string string) (checks : list (string * bool)) :
  (∀ field, is_Some (e !! field) ↔ In (field, false) checks) →
  collectsAll (FormValidator.finish e) checks.
Proof.
  intros Hfields. split; [done |]. simpl.
  rewrite Nat.eqb_eq, map_size_empty_iff, map_empty. split.
  - intros Hnone field [] Hin; [done |].
    apply Hfields in Hin as [msg Hmsg]. by rewrite Hnone in Hmsg.
  - intros Hall field. apply eq_None_not_Some. intros Hsome.
    apply Hfields in Hsome. by apply Hall in Hsome.
Qed.

Section VehicleFields.

Context (formData : gmap string jsstring).

Lemma validateVehicleForm_vehicleName :
  errors (FormValidator.validateVehicleForm formData) !! "vehicleName" =
    if FormValidator.blank (formData !! "vehicleName")
    then Some "Vehicle name is required" else None.
Proof. lookup_field. Qed.

Lemma validateVehicleForm_numberPlate :
  errors (FormValidator.validateVehicleForm formData) !! "numberPlate" =
    if FormValidator.blank (formData !! "numberPlate")
    then Some "Number plate is required"
    else if negb (RegExp.test PLATE_PATTERN
                    (trim (FormValidator.the (formData !! "numberPlate"))))
    then Some "Invalid number plate format (e.g., KCA 123A)"
    else None.
Proof. lookup_field. Qed.

Lemma validateVehicleForm_route :
  errors (FormValidator.validateVehicleForm formData) !! "route" =
    if FormValidator.blank (formData !! "route")
    then Some "Route is required" else None.
Proof. lookup_field. Qed.

Lemma validateVehicleForm_other (field : string) :
  "vehicleName" ≠ field → "numberPlate" ≠ field → "capacity" ≠ field →
  "route" ≠ field →
  errors (FormValidator.validateVehicleForm formData) !! field = None.
Proof. intros. lookup_no_field. Qed.

End VehicleFields.

(** One field of a validator against its checks. *)
Ltac crunch :=
  simpl;
  repeat (match goal with
          | |- context [negb ?b] => destruct b
          | |- context [if ?b then _ else _] => destruct b
          | |- context [match ?o with Some _ => _ | None => _ end] =>
              destruct o
          end; simpl);
  first [ done | by intros [? ?] | (intros; by eexists) ].

Ltac check_field :=
  split;
  [ intros Hsome;
    repeat first [ solve [ left; f_equal; revert Hsome; crunch ] | right ]
  | intros Hin; simpl in Hin;
    repeat (destruct Hin as [Hin | Hin]); try done;
    apply pair_equal_spec in Hin as [Hname Hbool];
    try discriminate Hname; revert Hbool; crunch ].

(** The vehicle form is valid exactly when its four checks pass (name and
    route not blank, number plate matching the pattern once trimmed,
    capacity read by [parseInt] from 1 to 100), and its errors have an
    entry for every field whose check fails, whatever the other fields
    are, and for nothing else. *)
Theorem vehicle_form_collects_all (formData : gmap string jsstring) :
  collectsAll (FormValidator.validateVehicleForm formData)
    (vehicleChecks formData).
Proof.
  apply (collectsAll_intro
           (errors (FormValidator.validateVehicleForm formData))).
  intros field. unfold vehicleChecks.
  destruct (decide ("vehicleName" = field)) as [<- | ?].
  { rewrite validateVehicleForm_vehicleName. check_field. }
  destruct (decide ("numberPlate" = field)) as [<- | ?].
  { rewrite validateVehicleForm_numberPlate. check_field. }
  destruct (decide ("capacity" = field)) as [<- | ?].
  { rewrite validateVehicleForm_capacity. check_field. }
  destruct (decide ("route" = field)) as [<- | ?].
  { rewrite validateVehicleForm_route. check_field. }
  rewrite validateVehicleForm_other by done.
  split; [by intros [? ?] | simpl; intuition congruence].
Qed.

Section TicketFields.

Context (pf : jsstring → bool) (formData : gmap string jsstring).

Lemma validateTicketForm_ticketVehicleId :
  errors (FormValidator.validateTicketForm pf formData) !! "ticketVehicleId" =
    if bool_decide (FormValidator.the (formData !! "ticketVehicleId") = [])
    then Some "Please select a vehicle" else None.
Proof. lookup_field. Qed.

Lemma validateTicketForm_customerName :
  errors (FormValidator.validateTicketForm pf formData) !! "customerName" =
    if FormValidator.blank (formData !! "customerName")
    then Some "Customer name is required" else None.
Proof. lookup_field. Qed.

Lemma validateTicketForm_ticketRoute :
  errors (FormValidator.validateTicketForm pf formData) !! "ticketRoute" =
    if FormValidator.blank (formData !! "ticketRoute")
    then Some "Route is required" else None.
Proof. lookup_field. Qed.

Lemma validateTicketForm_ticketAmount :
  errors (FormValidator.validateTicketForm pf formData) !! "ticketAmount" =
    if FormValidator.blank (formData !! "ticketAmount")
    then Some "Amount is required"
    else if pf (FormValidator.the (formData !! "ticketAmount"))
    then Some "Amount must be a positive number"
    else None.
Proof. lookup_field. Qed.

Lemma validateTicketForm_seatNumber :
  errors (FormValidator.validateTicketForm pf formData) !! "seatNumber" =
    if FormValidator.blank (formData !! "seatNumber")
    then Some "Seat number is required"
    else match parseInt (FormValidator.the (formData !! "seatNumber")) with
         | Some n =>
             if n <? 1
             then Some "Seat number must be a positive integer"
             else None
         | None => Some "Seat number must be a positive integer"
         end.
Proof. lookup_field. Qed.

Lemma validateTicketForm_cashier :
  errors (FormValidator.validateTicketForm pf formData) !! "cashier" =
    if FormValidator.blank (formData !! "cashier")
    then Some "Cashier name is required" else None.
Proof. lookup_field. Qed.

Lemma validateTicketForm_other (field : string) :
  "ticketVehicleId" ≠ field → "customerName" ≠ field →
  "phoneNumber" ≠ field → "ticketRoute" ≠ field → "ticketAmount" ≠ field →
  "seatNumber" ≠ field → "cashier" ≠ field →
  errors (FormValidator.validateTicketForm pf formData) !! field = None.
Proof. intros. lookup_no_field. Qed.

End TicketFields.

(** The ticket form is valid exactly when its seven checks pass, and its
    errors have an entry for every field whose check fails, whatever the
    other fields are, and for nothing else.  The vehicle is the one field
    that is not trimmed: a vehicle of spaces passes.  The seat number is
    only checked to be 1 or more as [parseInt] reads it. *)
Theorem ticket_form_collects_all
    (pf : jsstring → bool) (formData : gmap string jsstring) :
  collectsAll (FormValidator.validateTicketForm pf formData)
    (ticketChecks pf formData).
Proof.
  apply (collectsAll_intro
           (errors (FormValidator.validateTicketForm pf formData))).
  intros field. unfold ticketChecks.
  destruct (decide ("ticketVehicleId" = field)) as [<- | ?].
  { rewrite validateTicketForm_ticketVehicleId. check_field. }
  destruct (decide ("customerName" = field)) as [<- | ?].
  { rewrite validateTicketForm_customerName. check_field. }
  destruct (decide ("phoneNumber" = field)) as [<- | ?].
  { rewrite validateTicketForm_phoneNumber. check_field. }
  destruct (decide ("ticketRoute" = field)) as [<- | ?].
  { rewrite validateTicketForm_ticketRoute. check_field. }
  destruct (decide ("ticketAmount" = field)) as [<- | ?].
  { rewrite validateTicketForm_ticketAmount. check_field. }
  destruct (decide ("seatNumber" = field)) as [<- | ?].
  { rewrite validateTicketForm_seatNumber. check_field. }
  destruct (decide ("cashier" = field)) as [<- | ?].
  { rewrite validateTicketForm_cashier. check_field. }
  rewrite validateTicketForm_other by done.
  split; [by intros [? ?] | simpl; intuition congruence].
Qed.

Section ParcelFields.

Context (pf : jsstring → bool) (formData : gmap string jsstring).

Lemma validateParcelForm_parcelDescription :
  errors (FormValidator.validateParcelForm pf formData) !! "parcelDescription" =
    if FormValidator.blank (formData !! "parcelDescription")
    then Some "Description is required" else None.
Proof. lookup_field. Qed.

Lemma validateParcelForm_origin :
  errors (FormValidator.validateParcelForm pf formData) !! "origin" =
    if FormValidator.blank (formData !! "origin")
    then Some "Origin is required" else None.
Proof. lookup_field. Qed.

Lemma validateParcelForm_destination :
  errors (FormValidator.validateParcelForm pf formData) !! "destination" =
    if FormValidator.blank (formData !! "destination")
    then Some "Destination is required" else None.
Proof. lookup_field. Qed.

Lemma validateParcelForm_charge :
  errors (FormValidator.validateParcelForm pf formData) !! "charge" =
    if FormValidator.blank (formData !! "charge")
    then Some "Charge is required"
    else if pf (FormValidator.the (formData !! "charge"))
    then Some "Charge must be a positive number"
    else None.
Proof. lookup_field. Qed.

Lemma validateParcelForm_senderName :
  errors (FormValidator.validateParcelForm pf formData) !! "senderName" =
    if FormValidator.blank (formData !! "senderName")
    then Some "Sender name is required" else None.
Proof. lookup_field. Qed.

Lemma validateParcelForm_receiverName :
  errors (FormValidator.validateParcelForm pf formData) !! "receiverName" =
    if FormValidator.blank (formData !! "receiverName")
    then Some "Receiver name is required" else None.
Proof. lookup_field. Qed.

Lemma validateParcelForm_other (field : string) :
  "parcelDescription" ≠ field → "origin" ≠ field → "destination" ≠ field →
  "charge" ≠ field → "senderName" ≠ field → "senderPhone" ≠ field →
  "receiverName" ≠ field → "receiverPhone" ≠ field →
  errors (FormValidator.validateParcelForm pf formData) !! field = None.
Proof. intros. lookup_no_field. Qed.

End ParcelFields.

(** The parcel form is valid exactly when its eight checks pass, and its
    errors have an entry for every field whose check fails, whatever the
    other fields are, and for nothing else. *)
Theorem parcel_form_collects_all
    (pf : jsstring → bool) (formData : gmap string jsstring) :
  collectsAll (FormValidator.validateParcelForm pf formData)
    (parcelChecks pf formData).
Proof.
  apply (collectsAll_intro
           (errors (FormValidator.validateParcelForm pf formData))).
  intros field. unfold parcelChecks.
  destruct (decide ("parcelDescription" = field)) as [<- | ?].
  { rewrite validateParcelForm_parcelDescription. check_field. }
  destruct (decide ("origin" = field)) as [<- | ?].
  { rewrite validateParcelForm_origin. check_field. }
  destruct (decide ("destination" = field)) as [<- | ?].
  { rewrite validateParcelForm_destination. check_field. }
  destruct (decide ("charge" = field)) as [<- | ?].
  { rewrite validateParcelForm_charge. check_field. }
  destruct (decide ("senderName" = field)) as [<- | ?].
  { rewrite validateParcelForm_senderName. check_field. }
  destruct (decide ("senderPhone" = field)) as [<- | ?].
  { rewrite validateParcelForm_senderPhone. check_field. }
  destruct (decide ("receiverName" = field)) as [<- | ?].
  { rewrite validateParcelForm_receiverName. check_field. }
  destruct (decide ("receiverPhone" = field)) as [<- | ?].
  { rewrite validateParcelForm_receiverPhone. check_field. }
  rewrite validateParcelForm_other by done.
  split; [by intros [? ?] | simpl; intuition congruence].
Qed.

(** ** Number plates and seat numbers *)

Lemma PLATE_PATTERN_test (s : jsstring) :
  RegExp.test PLATE_PATTERN s = true ↔ isNumberPlate s.
Proof.
  rewrite test_lang. unfold PLATE_PATTERN, isNumberPlate. split.
  - intros (ls & s2 & -> & Hls & H2)%lang_Cat_inv.
    apply lang_Cat_inv in H2 as (s3 & s4 & -> & Hsp & H4).
    apply lang_Cat_inv in H4 as (ds & s5 & -> & Hds & Hl4).
    apply lang_times_Class in Hls as [Hlen1 Hall1].
    apply lang_times_Class in Hds as [Hlen2 Hall2].
    apply lang_Class_inv in Hsp as (sp & -> & Hsp).
    apply lang_Class_inv in Hl4 as (l4 & -> & Hl4).
    destruct ls as [|l1 [|l2 [|l3 [|? ?]]]]; try done.
    destruct ds as [|d1 [|d2 [|d3 [|? ?]]]]; try done.
    exists l1, l2, l3, sp, d1, d2, d3, l4.
    inversion Hall1 as [|? ? ? Hall1']; subst.
    inversion Hall1' as [|? ? ? Hall1'']; subst.
    inversion Hall1'' as [|? ? ? _]; subst.
    inversion Hall2 as [|? ? ? Hall2']; subst.
    inversion Hall2' as [|? ? ? Hall2'']; subst.
    inversion Hall2'' as [|? ? ? _]; subst.
    done.
  - intros (l1 & l2 & l3 & sp & d1 & d2 & d3 & l4 & -> & H).
    destruct H as (? & ? & ? & ? & ? & ? & ? & ?).
    apply lang_Cat_inv. exists [l1; l2; l3], [sp; d1; d2; d3; l4].
    split; [done |]. split.
    { apply lang_times_Class. split; [done |]. by repeat constructor. }
    apply lang_Cat_inv. exists [sp], [d1; d2; d3; l4].
    split; [done |]. split.
    { apply lang_Class_inv. eauto. }
    apply lang_Cat_inv. exists [d1; d2; d3], [l4].
    split; [done |]. split.
    { apply lang_times_Class. split; [done |]. by repeat constructor. }
    apply lang_Class_inv. eauto.
Qed.

Lemma isUpper_not_isWhiteSpace (c : N) :
  isUpper c = true → isWhiteSpace c = false.
Proof.
  unfold isUpper, isWhiteSpace.
  rewrite andb_true_iff, !N.leb_le. intros [H1 H2].
  repeat (rewrite orb_false_iff; split);
    try (apply N.eqb_neq; lia).
  apply andb_false_iff. left. apply N.leb_gt. lia.
Qed.

(** A number plate has no white space to trim. *)
Lemma isNumberPlate_trim (s : jsstring) : isNumberPlate s → trim s = s.
Proof.
  intros (l1 & l2 & l3 & sp & d1 & d2 & d3 & l4 & -> & H).
  destruct H as (H1 & _ & _ & _ & _ & _ & _ & H4).
  apply isUpper_not_isWhiteSpace in H1, H4.
  unfold trim. rewrite trimStart_id by done.
  by apply (trimEnd_snoc l4 [l1; l2; l3; sp; d1; d2; d3]).
Qed.

(** The entry of a field that is checked against a pattern, for a pattern
    that matches neither the empty string nor a string with white space
    at an end. *)
Lemma patternFieldRule_holds (pattern : RegExp.regex)
    (input : option jsstring) (required format : string) :
  required ≠ format →
  RegExp.test pattern [] = false →
  (∀ s, RegExp.test pattern s = true → trim s = s) →
  patternFieldRule pattern input
    (if FormValidator.blank input then Some required
     else if negb (RegExp.test pattern (trim (FormValidator.the input)))
     then Some format
     else None)
    required format.
Proof.
  intros Hne Hnil Htrim.
  unfold patternFieldRule, FormValidator.blank, FormValidator.the.
  destruct input as [s|]; simpl.
  - assert (RegExp.test pattern s = true
            → RegExp.test pattern (trim s) = true) as Hraw.
    { intros Hs. by rewrite (Htrim _ Hs). }
    case_bool_decide as Hblank.
    + assert (RegExp.test pattern (trim s) = false) as Htest.
      { by rewrite Hblank. }
      split; [| split; [| split; [| split; [| done]]]].
      * intros s' [= <-] Hs. apply Hraw in Hs. congruence.
      * split; [done |]. intros (s' & [= <-] & Hs). congruence.
      * split; [| done]. intros _. right. by exists s.
      * split; [by intros [= ->] |]. by intros (s' & [= <-] & Hs & _).
    + destruct (RegExp.test pattern (trim s)) eqn:Htest; simpl.
      * split; [| split; [| split; [| split; [| done]]]].
        -- done.
        -- split; [| done]. intros _. by exists s.
        -- split; [done |]. by intros [[=] | (s' & [= <-] & Hs)].
        -- split; [done |]. intros (s' & [= <-] & _ & Hs). congruence.
      * split; [| split; [| split; [| split; [| done]]]].
        -- intros s' [= <-] Hs. apply Hraw in Hs. congruence.
        -- split; [done |]. intros (s' & [= <-] & Hs). congruence.
        -- split; [by intros [= ->] |].
           by intros [[=] | (s' & [= <-] & Hs)].
        -- split; [| done]. intros _. by exists s.
  - split; [| split; [| split; [| split; [| done]]]].
    + by intros s [=].
    + split; [done |]. by intros (s & [=] & _).
    + split; [| done]. intros _. by left.
    + split; [by intros [= ->] |]. by intros (s & [=] & _).
Qed.

(** The number plate of the vehicle form is looked at with the white
    space at both ends trimmed off: missing or blank, it gets the required
    message; matching the pattern once trimmed, no entry; anything else,
    the format message.  The pattern matches three capital letters, one
    white-space character, three digits and one capital letter; the
    white-space character may be any that [\s] matches, a tab for one. *)
Theorem plate_validation (formData : gmap string jsstring) :
  patternFieldRule PLATE_PATTERN (formData !! "numberPlate")
    (errors (FormValidator.validateVehicleForm formData) !! "numberPlate")
    "Number plate is required"
    "Invalid number plate format (e.g., KCA 123A)"
  ∧ (∀ s, RegExp.test PLATE_PATTERN s = true ↔ isNumberPlate s)
  ∧ isNumberPlate (lit "KCA" ++ [9%N] ++ lit "123A").
Proof.
  rewrite validateVehicleForm_numberPlate. split; [| split].
  - apply patternFieldRule_holds; [done | done |].
    intros s Hs. by apply isNumberPlate_trim, PLATE_PATTERN_test.
  - apply PLATE_PATTERN_test.
  - by apply PLATE_PATTERN_test.
Qed.

(** The seat number of the ticket form: missing or blank, it gets the
    required message; otherwise it is read by [parseInt] and accepted when
    that gives an integer of 1 or more, with no upper bound and nothing
    asked of the vehicle.  So the numeral of an integer [n] is accepted
    exactly when [n] is 1 or more, and a numeral followed by other
    characters counts as the numeral. *)
Theorem seat_validation
    (pf : jsstring → bool) (formData : gmap string jsstring) :
  let input := formData !! "seatNumber" in
  let err := errors (FormValidator.validateTicketForm pf formData)
               !! "seatNumber" in
  let positive := Some "Seat number must be a positive integer" in
  (err = Some "Seat number is required"
   ↔ input = None ∨ ∃ s, input = Some s ∧ trim s = [])
  ∧ (∀ s, input = Some s → trim s ≠ [] →
       err = match parseInt s with
             | Some n => if 1 <=? n then None else positive
             | None => positive
             end)
  ∧ (∀ n : Z, input = Some (lit (Number_toString n)) →
       err = if 1 <=? n then None else positive)
  ∧ (∀ (n : Z) c rest, input = Some (lit (Number_toString n) ++ c :: rest) →
       isDigit c = false →
       err = if 1 <=? n then None else positive).
Proof.
  intros input err positive.
  assert (∀ s, input = Some s → trim s ≠ [] →
            err = match parseInt s with
                  | Some n => if 1 <=? n then None else positive
                  | None => positive
                  end) as Hrule.
  { intros s Hs Hblank. subst err. rewrite validateTicketForm_seatNumber.
    fold input. rewrite Hs. simpl. rewrite bool_decide_eq_false_2 by done.
    destruct (parseInt s) as [n|]; [| done].
    destruct (Z.ltb_spec n 1), (Z.leb_spec 1 n); simpl; done || lia. }
  split; [| split; [done | split]].
  - subst err. rewrite validateTicketForm_seatNumber. fold input.
    destruct input as [s|]; simpl.
    + case_bool_decide as Hblank.
      * split; [| done]. intros _. right. by exists s.
      * split.
        -- destruct (parseInt s) as [n|]; [| done]. by destruct (n <? 1).
        -- by intros [[=] | (s' & [= <-] & Hs)].
    + split; [| done]. intros _. by left.
  - intros n Hn. rewrite (Hrule _ Hn), parseInt_numeral; [done |].
    rewrite <- (app_nil_r (lit _)). apply numeral_nonblank.
  - intros n c rest Hn Hc.
    rewrite (Hrule _ Hn), parseInt_numeral_then; [done.. |].
    apply numeral_nonblank.
Qed.

(** * The variant without the offline fallback *)

(** In the plain variant a request that fails is raised again without a
    look at the Local Cache, and the user is told only of the statuses
    500 and 404: for any other failure, a timeout or a refused connection
    included, no toast is shown by the data layer. *)
Theorem plain_failure
    (error : AxiosError) (endpoint : string) (data : gmap string json)
    (w : world) :
  let toasts :=
    match Axios.response error with
    | Some r =>
        if Axios.status r =? 500
        then [NotificationShow
                (mkToast ToastType.error "Server error. Please try again later.")]
        else if Axios.status r =? 404
        then [NotificationShow (mkToast ToastType.error "Resource not found.")]
        else []
    | None => []
    end in
  let failed (m : M json) :=
    result m w = Throw error
    ∧ localStorage (after m w) = localStorage w
    ∧ cacheAccesses (emitted w (after m w)) = []
    ∧ notifications (emitted w (after m w)) = toasts in
  failed (Plain.get (Rejected error) endpoint)
  ∧ failed (Plain.post (Rejected error) endpoint data).
Proof.
  simpl. unfold Plain.get, Plain.post, Plain.handleError. run.
  destruct (Axios.response error) as [r|]; [destruct (Axios.status r =? 500);
    [| destruct (Axios.status r =? 404)] |];
    run; rewrite <- ?app_assoc, emitted_app; done.
Qed.

(** When the server answers, the two variants of the data layer do the
    same: a read is the same computation in both, a write returns or
    raises the same and shows the same toasts (the offline-capable write
    also drops the collection of the path once it has succeeded). *)
Theorem variants_agree
    (net : Axios.outcome) (now : Z) (endpoint : string)
    (data : gmap string json) (w : world) :
  serverAnswers net →
  ApiClient.get net endpoint w = Plain.get net endpoint w
  ∧ result (ApiClient.post net now endpoint data) w
    = result (Plain.post net endpoint data) w
  ∧ notifications
      (emitted w (after (ApiClient.post net now endpoint data) w))
    = notifications (emitted w (after (Plain.post net endpoint data) w)).
Proof.
  destruct net as [r|error]; simpl.
  - intros _. unfold Plain.get, Plain.post. run.
    split; [done |].
    destruct (ApiClient.getStorageKey endpoint); simpl.
    + rewrite emitted_app. unfold emitted. by rewrite drop_all.
    + done.
  - intros (Hconn & r & Hresp & Hstatus).
    pose proof (connection_error_not_aborted _ Hconn) as Hcode.
    unfold Plain.get, Plain.post, Plain.handleError. run.
    rewrite Hconn. unfold ApiClient.errorMessage. rewrite Hresp, Hcode.
    destruct Hstatus as [-> | ->]; simpl; run; rewrite <- ?app_assoc; done.
Qed.

Lemma variants_agree_witness :
  ApiClient.get (Rejected Scenario.server_error) "/reports"
    Scenario.cached_vehicles
  = Plain.get (Rejected Scenario.server_error) "/reports"
      Scenario.cached_vehicles.
Proof.
  refine (proj1 (variants_agree (Rejected Scenario.server_error) 0
                   "/reports" ∅ Scenario.cached_vehicles _)).
  split; [reflexivity |]. eexists. split; [reflexivity |]. by left.
Defined.

Lemma Plain_parseInt_decimal (s : jsstring) :
  hasHexPrefix s = false → Plain.parseInt s = parseInt s.
Proof.
  unfold hasHexPrefix, unsignedPart, Plain.parseInt, parseInt.
  destruct (trimStart s) as [|c rest]; [done |].
  destruct (c =? 45)%N eqn:Hminus; simpl.
  - destruct rest as [|z [|x rest]]; try done. by intros ->.
  - destruct (c =? 43)%N eqn:Hplus; simpl.
    + destruct rest as [|z [|x rest]]; try done. by intros ->.
    + destruct rest as [|x rest]; try done. by intros ->.
Qed.

(** The two variants of the vehicle validator differ only in the radix of
    [parseInt]: on every form whose capacity does not start, after white
    space and sign, with [0x] or [0X], they return the same validation. *)
Theorem plain_vehicle_form_agrees (formData : gmap string jsstring) :
  hasHexPrefix (FormValidator.the (formData !! "capacity")) = false →
  Plain.validateVehicleForm formData
  = FormValidator.validateVehicleForm formData.
Proof.
  intros Hhex.
  unfold Plain.validateVehicleForm, FormValidator.validateVehicleForm.
  by rewrite Plain_parseInt_decimal.
Qed.

Lemma plain_vehicle_form_agrees_witness :
  Plain.validateVehicleForm {[ "capacity" := lit "14" ]}
  = FormValidator.validateVehicleForm {[ "capacity" := lit "14" ]}.
Proof.
  apply plain_vehicle_form_agrees. by rewrite lookup_singleton_eq.
Defined.

(** With the prefix they differ: the plain variant reads "0x10" as 16. *)
Example plain_vehicle_form_hexadecimal :
  Plain.parseInt (lit "0x10") = Some 16
  ∧ parseInt (lit "0x10") = Some 0.
Proof. split; reflexivity. Qed.

(** * The controller *)

Import Controller.

(** The data layer never looks at the trace, which is what makes running
    it on the storage of a page faithful: a computation of [get] or [post]
    from any trace is the one from the empty trace, with the trace in
    front. *)
Lemma get_ignores_trace (net : Axios.outcome) (endpoint : string)
    (st : gmap string (list json)) (tr : list event) :
  ApiClient.get net endpoint (mkWorld st tr)
  = let (r, w) := ApiClient.get net endpoint (mkWorld st []) in
    (r, mkWorld (localStorage w) (tr ++ trace w)).
Proof.
  destruct net as [r|error]; run; [by rewrite app_nil_r |].
  destruct (ApiClient.isConnectionError error); simpl.
  - destruct (ApiClient.getStorageKey endpoint) as [key|]; simpl.
    + destruct (st !! key); simpl; by rewrite <- ?app_assoc.
    + by rewrite <- ?app_assoc.
  - by rewrite <- ?app_assoc.
Qed.

Lemma post_ignores_trace (net : Axios.outcome) (now : Z) (endpoint : string)
    (data : gmap string json) (st : gmap string (list json))
    (tr : list event) :
  ApiClient.post net now endpoint data (mkWorld st tr)
  = let (r, w) := ApiClient.post net now endpoint data (mkWorld st []) in
    (r, mkWorld (localStorage w) (tr ++ trace w)).
Proof.
  destruct net as [r|error]; run.
  - destruct (ApiClient.getStorageKey endpoint); simpl;
      by rewrite ?app_nil_r.
  - destruct (ApiClient.isConnectionError error); simpl.
    + destruct (ApiClient.getStorageKey endpoint) as [key|]; simpl;
        by rewrite <- ?app_assoc.
    + by rewrite <- ?app_assoc.
Qed.

(** ** What a computation of the controller may emit *)

Section Emits.

Context (P : effect → Prop).

Lemma emits_ret {A} (a : A) : emits P (mret a : U A).
Proof. intros p. exists []. by rewrite app_nil_r. Qed.

Lemma emits_raise {A} (x : exn) : emits P (raise x : U A).
Proof. intros p. exists []. by rewrite app_nil_r. Qed.

Lemma emits_tell (e : effect) : P e → emits P (tell e).
Proof. intros He p. exists [e]. split; [done |]. by repeat constructor. Qed.

Lemma emits_bind {A B} (m : U A) (k : A → U B) :
  emits P m → (∀ a, emits P (k a)) → emits P (m ≫= k).
Proof.
  intros Hm Hk p. unfold mbind, U_bind.
  destruct (Hm p) as (evs & Hlog & Hall).
  destruct (m p) as [[a|x] p1]; simpl in *.
  - destruct (Hk a p1) as (evs' & Hlog' & Hall').
    exists (evs ++ evs'). rewrite Hlog', Hlog, <- app_assoc.
    split; [done |]. by apply Forall_app.
  - by exists evs.
Qed.

Lemma emits_try_catch {A} (body : U A) (handler : exn → U A) :
  emits P body → (∀ x, emits P (handler x)) →
  emits P (try_catch_ body handler).
Proof.
  intros Hbody Hhandler p. unfold try_catch_.
  destruct (Hbody p) as (evs & Hlog & Hall).
  destruct (body p) as [[a|x] p1]; simpl in *.
  - by exists evs.
  - destruct (Hhandler x p1) as (evs' & Hlog' & Hall').
    exists (evs ++ evs'). rewrite Hlog', Hlog, <- app_assoc.
    split; [done |]. by apply Forall_app.
Qed.

Lemma emits_try_finally {A} (body : U A) (finalizer : U unit) :
  emits P body → emits P finalizer →
  emits P (try_finally_ body finalizer).
Proof.
  intros Hbody Hfin p. unfold try_finally_.
  destruct (Hbody p) as (evs & Hlog & Hall).
  destruct (body p) as [r p1]; simpl in *.
  destruct (Hfin p1) as (evs' & Hlog' & Hall').
  exists (evs ++ evs').
  destruct (finalizer p1) as [[[]|x] p2]; simpl in *;
    rewrite Hlog', Hlog, <- app_assoc; (split; [done |]);
    by apply Forall_app.
Qed.

Lemma emits_lift {A} (m : M A) :
  (∀ e, P (Browser e)) → emits P (lift m).
Proof.
  intros HP p. unfold lift.
  destruct (m (mkWorld (storage p) [])) as [[a|e] w]; simpl;
    (eexists; split; [done |]);
    apply Forall_fmap, Forall_forall; intros; apply HP.
Qed.

Lemma emits_template (v : option json) : emits P (template v).
Proof.
  destruct v as [v|]; simpl; [| apply emits_ret].
  destruct (ToString v); [apply emits_ret | apply emits_raise].
Qed.

Lemma emits_prop (v : json) (key : string) : emits P (prop v key).
Proof. destruct v; simpl; first [apply emits_ret | apply emits_raise]. Qed.

End Emits.

Lemma emits_mono (P Q : effect → Prop) {A} (m : U A) :
  (∀ e, P e → Q e) → emits P m → emits Q m.
Proof.
  intros HPQ Hm p. destruct (Hm p) as (evs & Hlog & Hall).
  exists evs. split; [done |]. eapply Forall_impl; eauto.
Qed.

(** Building the proof that a computation emits only what it may. *)
Ltac emits_step :=
  first
    [ apply emits_ret
    | apply emits_raise
    | apply emits_template
    | apply emits_prop
    | apply emits_lift; intros; exact I
    | apply emits_tell; simpl; try exact I
    | apply emits_try_catch; [| intros]
    | apply emits_try_finally
    | apply emits_bind; [| intros] ].

Lemma emits_forEach (vehicles : list json) : emits quiet (forEach vehicles).
Proof.
  induction vehicles as [|vehicle rest IH]; simpl; [apply emits_ret |].
  apply emits_bind; [| by intros].
  unfold appendVehicle. repeat emits_step. by intros [].
Qed.

Lemma emits_populateVehicleSelects (vehicles : json) :
  emits quiet (populateVehicleSelects vehicles).
Proof.
  unfold populateVehicleSelects. apply emits_bind; [| intros _].
  - apply emits_tell. by intros [].
  - destruct vehicles; first [apply emits_raise | apply emits_forEach].
Qed.

(** [loadVehicles] sends one request, the read of the vehicles. *)
Lemma emits_loadVehicles (net : Axios.outcome) :
  emits (fun e => quiet e
                  ∨ e = Request "GET" "http://localhost:5000/api/vehicles" None)
    (loadVehicles net).
Proof.
  unfold loadVehicles, api_get, show.
  apply emits_try_catch; [| intros error].
  - apply emits_bind; [| intros vehicles].
    + apply emits_bind; [| intros _].
      * apply emits_tell. by right.
      * apply emits_lift. intros e. left. by intros [].
    + eapply emits_mono; [| apply emits_populateVehicleSelects]. by left.
  - apply emits_bind; [| intros _].
    { apply emits_tell. left. by intros []. }
    apply emits_bind; [| intros _].
    { apply emits_lift. intros e. left. by intros []. }
    apply emits_bind; [| intros localVehicles].
    { apply emits_lift. intros e. left. by intros []. }
    eapply emits_mono; [| apply emits_populateVehicleSelects]. by left.
Qed.

Lemma emits_setTextContent (P : effect → Prop) (element : string)
    (v : option json) :
  (∀ text, P (SetTextContent element text)) →
  emits P (setTextContent element v).
Proof.
  intros HP. unfold setTextContent.
  destruct v as [[]|]; repeat emits_step; apply HP.
Qed.

Lemma emits_reportFailure (P : effect → Prop) (fallback : string) (x : exn) :
  (∀ e, P (Browser e)) → emits P (reportFailure fallback x).
Proof.
  intros HP. unfold reportFailure, show.
  apply emits_bind; [apply emits_template | intros message].
  by apply emits_lift.
Qed.

(** ** What a valid form is *)

Lemma Number_ofInteger_safe (n : Z) :
  - 2 ^ 53 < n < 2 ^ 53 → Number_ofInteger n = Some n.
Proof.
  intros Hn. unfold Number_ofInteger.
  destruct (Z.ltb_spec (Z.abs n) (2 ^ 53)); [done | lia].
Qed.

(** Above 2^53 the seat number that is sent is not always the one that
    was typed. *)
Example Number_ofInteger_rounds :
  Number_ofInteger 9007199254740993 = Some 9007199254740992.
Proof. reflexivity. Qed.

Lemma valid_no_error (validation : FormValidation) (field : string) :
  validation = FormValidator.finish (errors validation) →
  isValid validation = true → errors validation !! field = None.
Proof.
  intros -> Hvalid. simpl in *.
  apply Nat.eqb_eq, map_size_empty_iff in Hvalid. by rewrite Hvalid.
Qed.

Lemma vehicle_valid_capacity (formData : gmap string jsstring) :
  isValid (FormValidator.validateVehicleForm formData) = true →
  ∃ n, parseInt (FormValidator.the (formData !! "capacity")) = Some n
       ∧ 1 ≤ n ≤ 100.
Proof.
  intros Hvalid.
  pose proof (valid_no_error _ "capacity" eq_refl Hvalid) as Hcap.
  rewrite validateVehicleForm_capacity in Hcap.
  destruct (FormValidator.blank (formData !! "capacity")); [done |].
  destruct (parseInt _) as [n|]; [| done]. exists n. split; [done |].
  destruct (Z.ltb_spec n 1), (Z.gtb_spec n 100); simpl in Hcap; done || lia.
Qed.

(** Whatever the network and the cache do, the registration of a vehicle
    sends no other requests than the creation of a vehicle whose capacity
    is a number from 1 to 100 and the reload of the vehicles. *)
Theorem registration_requests
    (encode : jsstring → string) (formData : gmap string jsstring)
    (post_net : Axios.outcome) (now : Z) (load_net : Axios.outcome) :
  emits registrationRequest
    (handleVehicleRegistration encode formData post_net now load_net).
Proof.
  unfold handleVehicleRegistration.
  destruct (isValid (FormValidator.validateVehicleForm formData)) eqn:Hvalid;
    simpl; [| by apply emits_tell].
  destruct (vehicle_valid_capacity _ Hvalid) as (n & Hn & Hrange).
  apply emits_bind; [by apply emits_tell | intros _].
  apply emits_try_finally; [| by apply emits_tell].
  apply emits_try_catch; [| intros error; by apply emits_reportFailure].
  apply emits_bind; [| intros response].
  { unfold api_post. apply emits_bind; [| intros _; by apply emits_lift].
    apply emits_tell. simpl. split; [done |]. split; [done |].
    exists n. split; [| done].
    unfold vehicleData, intField. rewrite Hn.
    rewrite Number_ofInteger_safe by lia.
    by rewrite lookup_insert_ne, lookup_insert_ne, lookup_insert_eq. }
  unfold show.
  do 5 (apply emits_bind; [solve [emits_step] | intros ?]).
  eapply emits_mono; [| apply emits_loadVehicles].
  intros e [Hquiet | ->]; [| done].
  destruct e; try done. by destruct Hquiet.
Qed.

(** ** The shape of a submission *)

Lemma appended_app (p : page) (st : gmap string (list json))
    (effects : list effect) :
  appended p (mkPage st (log p ++ effects)) = effects.
Proof. unfold appended; simpl. by rewrite drop_app_length. Qed.

Lemma appended_log (p p' : page) (effects : list effect) :
  log p' = log p ++ effects → appended p p' = effects.
Proof. unfold appended. intros ->. by rewrite drop_app_length. Qed.

Lemma log_try_finally_tell {A} (body : U A) (e : effect) (p : page) :
  log (try_finally_ body (tell e) p).2 = log (body p).2 ++ [e].
Proof. unfold try_finally_, tell. by destruct (body p). Qed.

Lemma not_post_quiet (e : effect) : quiet e → ¬ isPost e.
Proof. destruct e; try done. by intros []. Qed.

(** After the request, a handler sends no other request with the method
    POST. *)
Lemma emits_after_post {A} (m : M json) (k : json → U A)
    (handler : exn → U A) :
  (∀ response, emits (fun e => ¬ isPost e) (k response)) →
  (∀ x, emits (fun e => ¬ isPost e) (handler x)) →
  emits (fun e => ¬ isPost e) (try_catch_ (lift m ≫= k) handler).
Proof.
  intros Hk Hhandler. apply emits_try_catch; [| done].
  apply emits_bind; [| done]. apply emits_lift. by intros e [].
Qed.

Lemma submission_valid {A} (form endpoint : string)
    (payload : gmap string json) (validation : FormValidation)
    (m : M json) (k : json → U A) (handler : exn → U A) (p : page) :
  isValid validation = true →
  (∀ response, emits (fun e => ¬ isPost e) (k response)) →
  (∀ x, emits (fun e => ¬ isPost e) (handler x)) →
  submission form endpoint payload validation p
    ((tell (SetButtonLoading form true);;
      try_finally_
        (try_catch_
           ((tell (Request "POST" (API_BASE_URL +:+ endpoint) (Some payload));;
             lift m) ≫= k)
           handler)
        (tell (SetButtonLoading form false))) p).2.
Proof.
  intros Hvalid Hk Hhandler. unfold submission. rewrite Hvalid.
  set (p2 := mkPage (storage p)
               ((log p ++ [SetButtonLoading form true])
                ++ [Request "POST" (API_BASE_URL +:+ endpoint) (Some payload)])).
  destruct (emits_after_post m k handler Hk Hhandler p2)
    as (between & Hlog & Hall).
  exists between. split; [| done]. apply appended_log.
  change ((tell (SetButtonLoading form true);; ?body) p)
    with (body (mkPage (storage p) (log p ++ [SetButtonLoading form true]))).
  rewrite log_try_finally_tell.
  change (try_catch_ ((tell ?e;; lift m) ≫= k) handler ?q)
    with (try_catch_ (lift m ≫= k) handler
            (mkPage (storage q) (log q ++ [e]))).
  simpl storage. simpl log. fold p2. rewrite Hlog. unfold p2. simpl.
  by rewrite <- !app_assoc.
Qed.

Lemma submission_invalid (form endpoint : string)
    (payload : gmap string json) (validation : FormValidation) (p : page) :
  isValid validation = false →
  submission form endpoint payload validation p
    (tell (DisplayErrors (errors validation)) p).2.
Proof.
  intros Hvalid. unfold submission. rewrite Hvalid. simpl.
  by rewrite appended_app.
Qed.

(** A submission of any of the three forms has the shape of a submission:
    an invalid form only has its errors displayed, and nothing is sent or
    stored; a valid form is posted once, between the setting and the
    unsetting of the loading state of its button, which is unset whatever
    the network does and whatever goes wrong in between. *)
Theorem submission_shape
    (encode : jsstring → string) (parseFloat : jsstring → json)
    (pf : jsstring → bool) (formData : gmap string jsstring)
    (post_net : Axios.outcome) (now : Z) (then_net : Axios.outcome)
    (p : page) :
  submission "vehicle-form" "/vehicles" (vehicleData encode formData)
    (FormValidator.validateVehicleForm formData) p
    (handleVehicleRegistration encode formData post_net now then_net p).2
  ∧ submission "ticket-form" "/tickets"
      (ticketData encode parseFloat formData)
      (FormValidator.validateTicketForm pf formData) p
      (handleTicketIssuance encode parseFloat pf formData
         post_net now then_net p).2
  ∧ submission "parcel-form" "/parcels"
      (parcelData encode parseFloat formData)
      (FormValidator.validateParcelForm pf formData) p
      (handleParcelPosting encode parseFloat pf formData
         post_net now then_net p).2.
Proof.
  assert (∀ fallback x, emits (fun e => ¬ isPost e) (reportFailure fallback x))
    as Hreport.
  { intros. apply emits_reportFailure. by intros e []. }
  assert (∀ endpoint, emits (fun e => ¬ isPost e) (api_get then_net endpoint))
    as Hget.
  { intros. unfold api_get. apply emits_bind; [| intros _].
    - apply emits_tell. simpl. discriminate.
    - apply emits_lift. by intros e []. }
  split; [| split].
  - unfold handleVehicleRegistration.
    destruct (isValid (FormValidator.validateVehicleForm formData)) eqn:Hvalid;
      simpl negb; cbv iota; [| by apply submission_invalid].
    apply submission_valid; [done | | done]. intros response. unfold show.
    do 5 (apply emits_bind;
          [solve [emits_step; by intros []] | intros ?]).
    eapply emits_mono; [| apply emits_loadVehicles].
    intros e [Hquiet | ->]; [by apply not_post_quiet | discriminate].
  - unfold handleTicketIssuance.
    destruct (isValid (FormValidator.validateTicketForm pf formData))
      eqn:Hvalid; simpl negb; cbv iota; [| by apply submission_invalid].
    apply submission_valid; [done | | done]. intros response. unfold show.
    do 2 (apply emits_bind; [solve [emits_step] | intros ?]).
    apply emits_bind; [apply Hget | intros ?].
    apply emits_bind; [solve [emits_step] | intros ?].
    apply emits_bind; [apply emits_setTextContent; by intros ? [] | intros ?].
    repeat (apply emits_bind;
            [solve [emits_step; by intros []] | intros ?]).
    apply emits_tell. by intros [].
  - unfold handleParcelPosting.
    destruct (isValid (FormValidator.validateParcelForm pf formData))
      eqn:Hvalid; simpl negb; cbv iota; [| by apply submission_invalid].
    apply submission_valid; [done | | done]. intros response. unfold show.
    do 2 (apply emits_bind; [solve [emits_step] | intros ?]).
    apply emits_bind; [apply Hget | intros ?].
    apply emits_bind; [solve [emits_step] | intros ?].
    apply emits_bind; [apply emits_setTextContent; by intros ? [] | intros ?].
    repeat (apply emits_bind;
            [solve [emits_step; by intros []] | intros ?]).
    apply emits_tell. by intros [].
Qed.

(** ** Submissions, case by case *)

#[local] Arguments errorDetail : simpl never.
#[local] Arguments vehicleData : simpl never.
#[local] Arguments ticketData : simpl never.
#[local] Arguments parcelData : simpl never.
#[local] Arguments mockData : simpl never.

(** Running a handler step by step. *)
Ltac go :=
  unfold handleVehicleRegistration, handleTicketIssuance, handleParcelPosting,
    loadVehicles, populateVehicleSelects, reportFailure, api_get, api_post,
    show, setTextContent, template, prop, try_finally_, try_catch_, lift,
    tell, raise;
  unfold mbind, U_bind, mret, U_ret;
  run.




(** A ticket issued offline is reported as failed although it is queued:
    the offline write returns no receipt, so the handler asks for the
    receipt "undefined"; when that request fails without a response as
    well, the ticket stays in the tickets collection, the user gets two
    error toasts, the second one "Error: Failed to issue ticket", no
    success toast is shown and the form is not reset. *)
Theorem offline_ticket_reported_failed
    (encode : jsstring → string) (parseFloat : jsstring → json)
    (pf : jsstring → bool) (formData : gmap string jsstring)
    (error error' : AxiosError) (now : Z) (p : page) :
  isValid (FormValidator.validateTicketForm pf formData) = true →
  ApiClient.isConnectionError error = true →
  Axios.response error' = None →
  handleTicketIssuance encode parseFloat pf formData
    (Rejected error) now (Rejected error') p
  = (Done tt,
     mkPage
       (<[STORAGE_KEYS.TICKETS :=
            default [] (storage p !! STORAGE_KEYS.TICKETS)
            ++ [mockData now (ticketData encode parseFloat formData)]]>
          (storage p))
       (log p ++
        [SetButtonLoading "ticket-form" true;
         Request "POST" "http://localhost:5000/api/tickets"
           (Some (ticketData encode parseFloat formData));
         Browser (GetItem STORAGE_KEYS.TICKETS);
         Browser (SetItem STORAGE_KEYS.TICKETS);
         Browser (ConsoleWarn
                    ("Stored /tickets locally due to connection error: "
                     +:+ Number_toString now));
         Request "GET" "http://localhost:5000/api/receipts/undefined" None;
         Browser (ConsoleError "API Error:" error');
         Browser (NotificationShow
                    (mkToast ToastType.error (ApiClient.errorMessage error')));
         Browser (NotificationShow
                    (mkToast ToastType.error "Error: Failed to issue ticket"));
         SetButtonLoading "ticket-form" false])).
Proof.
  intros Hvalid Hconn Hresp.
  unfold handleTicketIssuance. rewrite Hvalid. go. rewrite Hconn. simpl.
  rewrite lookup_singleton_ne by done. simpl.
  destruct (ApiClient.isConnectionError error'); simpl;
    unfold errorDetail; rewrite Hresp; simpl;
    by rewrite <- !app_assoc.
Qed.

Lemma offline_ticket_reported_failed_witness :
  toasts
    (log (handleTicketIssuance Sample.encode Sample.parseFloat
            Sample.parseFloat_isNaN_or_negative Sample.ticket_form
            (Rejected Scenario.timed_out) 1700000000000
            (Rejected Scenario.timed_out) Sample.empty_page).2)
  = [mkToast ToastType.error "An unexpected error occurred";
     mkToast ToastType.error "Error: Failed to issue ticket"].
Proof.
  rewrite (offline_ticket_reported_failed Sample.encode Sample.parseFloat
             Sample.parseFloat_isNaN_or_negative Sample.ticket_form
             Scenario.timed_out Scenario.timed_out 1700000000000
             Sample.empty_page);
    reflexivity.
Defined.

(** ** The vehicles in the selects *)

Lemma appendVehicle_option (vehicle : json) (o : string * string * string)
    (p : page) :
  vehicleOption vehicle = Some o →
  appendVehicle vehicle p
  = (Done tt, mkPage (storage p) (log p ++ [optionEffect o])).
Proof.
  unfold vehicleOption, appendVehicle, optionEffect.
  destruct vehicle as [| | | | |obj]; try done;
    try (intros [= <-]; by go).
  go.
  destruct (obj !! "id") as [v1|]; simpl.
  - destruct (ToString v1) as [s1|]; simpl; [| done].
    destruct (obj !! "name") as [v2|]; simpl.
    + destruct (ToString v2) as [s2|]; simpl; [| done].
      destruct (obj !! "number_plate") as [v3|]; simpl.
      * destruct (ToString v3) as [s3|]; simpl; [| done]. by intros [= <-].
      * by intros [= <-].
    + destruct (obj !! "number_plate") as [v3|]; simpl.
      * destruct (ToString v3) as [s3|]; simpl; [| done]. by intros [= <-].
      * by intros [= <-].
  - destruct (obj !! "name") as [v2|]; simpl.
    + destruct (ToString v2) as [s2|]; simpl; [| done].
      destruct (obj !! "number_plate") as [v3|]; simpl.
      * destruct (ToString v3) as [s3|]; simpl; [| done]. by intros [= <-].
      * by intros [= <-].
    + destruct (obj !! "number_plate") as [v3|]; simpl.
      * destruct (ToString v3) as [s3|]; simpl; [| done]. by intros [= <-].
      * by intros [= <-].
Qed.






Lemma vehicle_valid_present (formData : gmap string jsstring) :
  isValid (FormValidator.validateVehicleForm formData) = true →
  ∃ name plate,
    formData !! "vehicleName" = Some name
    ∧ formData !! "numberPlate" = Some plate.
Proof.
  intros Hvalid.
  pose proof (valid_no_error _ "vehicleName" eq_refl Hvalid) as Hname.
  pose proof (valid_no_error _ "numberPlate" eq_refl Hvalid) as Hplate.
  rewrite validateVehicleForm_vehicleName in Hname.
  rewrite validateVehicleForm_numberPlate in Hplate.
  destruct (formData !! "vehicleName") as [name|]; [| done].
  destruct (formData !! "numberPlate") as [plate|]; [| done].
  by exists name, plate.
Qed.

(** A vehicle registered offline is listed at once: when the registration
    and the reload that follows both fail with a connectivity failure and
    no vehicle was cached, the user gets the success toast with the
    synthesized identifier, the vehicle is queued, and the reload, served
    from the cache, puts it in the selects under that identifier. *)
Theorem offline_registration_listed
    (encode : jsstring → string) (formData : gmap string jsstring)
    (error error' : AxiosError) (now : Z) (p : page) :
  isValid (FormValidator.validateVehicleForm formData) = true →
  ApiClient.isConnectionError error = true →
  ApiClient.isConnectionError error' = true →
  storage p !! STORAGE_KEYS.VEHICLES = None →
  handleVehicleRegistration encode formData
    (Rejected error) now (Rejected error') p
  = (Done tt,
     mkPage
       (<[STORAGE_KEYS.VEHICLES :=
            [mockData now (vehicleData encode formData)]]> (storage p))
       (log p ++
        [SetButtonLoading "vehicle-form" true;
         Request "POST" "http://localhost:5000/api/vehicles"
           (Some (vehicleData encode formData));
         Browser (GetItem STORAGE_KEYS.VEHICLES);
         Browser (SetItem STORAGE_KEYS.VEHICLES);
         Browser (ConsoleWarn
                    ("Stored /vehicles locally due to connection error: "
                     +:+ Number_toString now));
         Browser (NotificationShow
                    (mkToast ToastType.success
                       ("Vehicle registered successfully! ID: "
                        +:+ Number_toString now)));
         Reset "vehicle-form";
         DisplayErrors ∅;
         Request "GET" "http://localhost:5000/api/vehicles" None;
         Browser (GetItem STORAGE_KEYS.VEHICLES);
         Browser (ConsoleWarn
                    "Using local storage data for /vehicles due to connection error");
         ClearSelects;
         AppendOption (Number_toString now)
           (encode (FormValidator.the (formData !! "vehicleName"))
            +:+ " ("
            +:+ encode (FormValidator.the (formData !! "numberPlate"))
            +:+ ")");
         SetButtonLoading "vehicle-form" false])).
Proof.
  intros Hvalid Hconn Hconn' Hnone.
  destruct (vehicle_valid_present _ Hvalid) as (name & plate & Hname & Hplate).
  assert (vehicleOption (mockData now (vehicleData encode formData))
          = Some (Number_toString now, encode name, encode plate)) as Hoption.
  { unfold vehicleOption, mockData, vehicleData, field.
    rewrite Hname, Hplate. by simplify_map_eq. }
  unfold handleVehicleRegistration. rewrite Hvalid. go.
  unfold STORAGE_KEYS.VEHICLES in *. rewrite Hconn. simpl.
  rewrite Hnone. simpl. rewrite lookup_singleton_eq. simpl.
  rewrite Hconn'. simpl. rewrite lookup_insert_eq. simpl.
  fold (mockData now (vehicleData encode formData)).
  unfold mbind, U_bind. rewrite (appendVehicle_option _ _ _ Hoption). simpl.
  rewrite Hname, Hplate. simpl. by rewrite <- !app_assoc.
Qed.

Lemma offline_registration_listed_witness :
  toasts
    (log (handleVehicleRegistration Sample.encode Sample.vehicle_form
            (Rejected Scenario.timed_out) 1700000000000
            (Rejected Scenario.timed_out) Sample.empty_page).2)
  = [mkToast ToastType.success
       "Vehicle registered successfully! ID: 1700000000000"].
Proof.
  rewrite (offline_registration_listed Sample.encode Sample.vehicle_form
             Scenario.timed_out Scenario.timed_out 1700000000000
             Sample.empty_page);
    reflexivity.
Defined.

(** A ticket issued online: when the server answers the creation with a
    ticket that names its receipt and the read of that receipt with a
    receipt, the handler asks for exactly that receipt, shows its text,
    then the success toast with the identifier of the ticket, and resets
    the form; the tickets queued offline are dropped from the Local Cache
    by the write. *)
Theorem ticket_issued_online
    (encode : jsstring → string) (parseFloat : jsstring → json)
    (pf : jsstring → bool) (formData : gmap string jsstring)
    (created fetched : AxiosResponse) (ticket receipt : gmap string json)
    (receipt_id ticket_id text : string) (now : Z) (p : page) :
  isValid (FormValidator.validateTicketForm pf formData) = true →
  Axios.data created = JObj ticket →
  ticket !! "receipt_id" = Some (JStr receipt_id) →
  ticket !! "ticket_id" = Some (JStr ticket_id) →
  Axios.data fetched = JObj receipt →
  receipt !! "receipt" = Some (JStr text) →
  handleTicketIssuance encode parseFloat pf formData
    (Resolved created) now (Resolved fetched) p
  = (Done tt,
     mkPage (delete STORAGE_KEYS.TICKETS (storage p))
       (log p ++
        [SetButtonLoading "ticket-form" true;
         Request "POST" "http://localhost:5000/api/tickets"
           (Some (ticketData encode parseFloat formData));
         Browser (RemoveItem STORAGE_KEYS.TICKETS);
         Request "GET" ("http://localhost:5000/api/receipts/" +:+ receipt_id)
           None;
         SetTextContent "receipt-output" text;
         Browser (NotificationShow
                    (mkToast ToastType.success
                       ("Ticket issued successfully! ID: " +:+ ticket_id)));
         Reset "ticket-form";
         DisplayErrors ∅;
         SetButtonLoading "ticket-form" false])).
Proof.
  intros Hvalid Hticket Hrid Htid Hreceipt Htext.
  unfold handleTicketIssuance. rewrite Hvalid. go.
  rewrite Hticket. simpl. rewrite Hrid. simpl.
  rewrite Hreceipt. simpl. rewrite Htext. simpl. rewrite Htid. simpl.
  by rewrite <- !app_assoc.
Qed.

Lemma ticket_issued_online_witness :
  toasts
    (log (handleTicketIssuance Sample.encode Sample.parseFloat
            Sample.parseFloat_isNaN_or_negative Sample.ticket_form
            (Resolved (mkResponse
                         (JObj {[ "ticket_id" := JStr "t-9";
                                  "receipt_id" := JStr "r-9" ]}) 201))
            1700000000000
            (Resolved (mkResponse
                         (JObj {[ "receipt" := JStr "Seat 4, KES 50" ]}) 200))
            Sample.empty_page).2)
  = [mkToast ToastType.success "Ticket issued successfully! ID: t-9"].
Proof.
  rewrite (ticket_issued_online Sample.encode Sample.parseFloat
             Sample.parseFloat_isNaN_or_negative Sample.ticket_form
             _ _ {[ "ticket_id" := JStr "t-9"; "receipt_id" := JStr "r-9" ]}
             {[ "receipt" := JStr "Seat 4, KES 50" ]}
             "r-9" "t-9" "Seat 4, KES 50");
    reflexivity.
Defined.
